(** * GeoContext: the context retrieval and caching engine

    A shallow embedding of

      - [geocontext/models/context_service_registry.py]
        ([ContextServiceRegistry]: [build_query_url], [parse_request_value],
        [retrieve_context_value]),
      - [geocontext/models/utilities.py] ([retrieve_context]),
      - [geocontext/serializers/context_group.py]
        ([ContextGroupValue.populate_service_registry_values]),

    together with the properties of the retrieval engine that the
    specification states about them.

    Python values are modelled as the code has them: [str] as [string]
    (a sequence of bytes), [int] as [Z], [None]-able values as [option],
    a raised exception as the [Raise] result of a small state-and-error
    monad over the database tables and the network log. *)

From Stdlib Require Import String Ascii List ZArith Bool Lia.
From Stdlib Require Import DecimalString.
From Stdlib Require Import Sorting.Sorted Sorting.Permutation.
Import ListNotations.

Local Open Scope list_scope.
Local Open Scope string_scope.

Set Warnings "-register-all".

(* ===================================================================== *)
(** ** Python strings *)
(* ===================================================================== *)

Module PyStr.

(** [c in s] for a one-character string [c]. *)
Fixpoint contains_char (c : ascii) (s : string) : bool :=
  match s with
  | EmptyString => false
  | String a r => Ascii.eqb a c || contains_char c r
  end.

(** [s.split(c)[0]]: the part of [s] before the first [c]. *)
Fixpoint before_char (c : ascii) (s : string) : string :=
  match s with
  | EmptyString => EmptyString
  | String a r => if Ascii.eqb a c then EmptyString
                  else String a (before_char c r)
  end.

(** The part of [s] after the first [c] ([None] when [c] is not in [s]). *)
Fixpoint after_char (c : ascii) (s : string) : option string :=
  match s with
  | EmptyString => None
  | String a r => if Ascii.eqb a c then Some r else after_char c r
  end.

(** [s.split(c)] for a one-character separator. *)
Fixpoint split (c : ascii) (s : string) : list string :=
  match s with
  | EmptyString => [EmptyString]
  | String a r =>
      if Ascii.eqb a c then EmptyString :: split c r
      else match split c r with
           | [] => [String a EmptyString]
           | w :: ws => String a w :: ws
           end
  end.

(** [sep.join(l)]. *)
Definition join (sep : string) (l : list string) : string :=
  String.concat sep l.

(** [str(n)] for an [int]. *)
Definition str_int (n : Z) : string :=
  NilZero.string_of_int (Z.to_int n).

(** ['%s' % v] for a nullable integer field. *)
Definition str_opt_int (v : option Z) : string :=
  match v with
  | Some n => str_int n
  | None => "None"
  end.

End PyStr.

(* ===================================================================== *)
(** ** URL encoding ([QueryDict.urlencode], i.e. [urllib]'s [quote_plus]) *)
(* ===================================================================== *)

Module UrlEncode.

Definition is_digit (c : ascii) : bool :=
  let n := N_of_ascii c in (48 <=? n)%N && (n <=? 57)%N.

Definition is_upper (c : ascii) : bool :=
  let n := N_of_ascii c in (65 <=? n)%N && (n <=? 90)%N.

Definition is_lower (c : ascii) : bool :=
  let n := N_of_ascii c in (97 <=? n)%N && (n <=? 122)%N.

(** [urllib.parse._ALWAYS_SAFE]: letters, digits and [_.-~]. *)
Definition always_safe (c : ascii) : bool :=
  is_digit c || is_upper c || is_lower c
  || PyStr.contains_char c "_.-~".

(** One upper-case hexadecimal digit. *)
Definition hex_digit (n : N) : ascii :=
  if (n <? 10)%N then ascii_of_N (48 + n) else ascii_of_N (55 + n).

(** What [quote_plus] writes for one byte. *)
Definition quote_byte (c : ascii) : string :=
  if always_safe c then String c EmptyString
  else if Ascii.eqb c " " then "+"
  else let n := N_of_ascii c in
       String "%" (String (hex_digit (n / 16)) (String (hex_digit (n mod 16)) EmptyString)).

Fixpoint quote_plus (s : string) : string :=
  match s with
  | EmptyString => EmptyString
  | String c r => quote_byte c ++ quote_plus r
  end.

(** [urlencode({k: v})]. *)
Definition encode_pair (kv : string * string) : string :=
  quote_plus (fst kv) ++ "=" ++ quote_plus (snd kv).

(** [QueryDict.urlencode()] of a query dict that holds one value per key,
    in the order the keys were inserted. *)
Definition urlencode (q : list (string * string)) : string :=
  PyStr.join "&" (map encode_pair q).

(** *** Reading a query string back

    The reading of a query string that gives "parameter [k] has value
    [v]" its meaning: split at [&], split each term at its first [=],
    undo [+] and the percent escapes. *)

Definition unhex (c : ascii) : option N :=
  let n := N_of_ascii c in
  if is_digit c then Some (n - 48)%N
  else if (65 <=? n)%N && (n <=? 70)%N then Some (n - 55)%N
  else if (97 <=? n)%N && (n <=? 102)%N then Some (n - 87)%N
  else None.

Fixpoint unquote_plus (s : string) : string :=
  match s with
  | EmptyString => EmptyString
  | String c r =>
      if Ascii.eqb c "+" then String " " (unquote_plus r)
      else if Ascii.eqb c "%" then
        match r with
        | String a (String b r') =>
            match unhex a, unhex b with
            | Some h, Some l => String (ascii_of_N (16 * h + l)) (unquote_plus r')
            | _, _ => String c (unquote_plus r)
            end
        | _ => String c (unquote_plus r)
        end
      else String c (unquote_plus r)
  end.

Definition decode_pair (t : string) : string * string :=
  (unquote_plus (PyStr.before_char "=" t),
   match PyStr.after_char "=" t with
   | Some v => unquote_plus v
   | None => EmptyString
   end).

Definition decode_query (q : string) : list (string * string) :=
  map decode_pair (PyStr.split "&" q).

End UrlEncode.

(* ===================================================================== *)
(** ** The service registry record *)
(* ===================================================================== *)

(** [ContextServiceRegistry.QUERY_TYPES]. *)
Definition WFS : string := "WFS".
Definition WCS : string := "WCS".
Definition WMS : string := "WMS".
Definition REST : string := "REST".
Definition WIKIPEDIA : string := "Wikipedia".

(** The fields of the Django model [ContextServiceRegistry].  The fields
    declared [null=True] are options. *)
Record ContextServiceRegistry := {
  key : string;
  name : string;
  description : option string;
  url : string;
  user : option string;
  password : option string;
  api_key : option string;
  query_url : option string;
  query_type : string;
  result_regex : string;
  time_to_live : option Z;
  srid : option Z;
  layer_typename : string;
  service_version : string
}.

(* ===================================================================== *)
(** ** Exceptions and results *)
(* ===================================================================== *)

(** The Python exceptions that the modelled paths can raise. *)
Inductive exn : Type :=
| DoesNotExist              (* [objects.get]: no row matches *)
| MultipleObjectsReturned   (* [objects.get]: several rows match *)
| AttributeError            (* attribute access on [None] *)
| TypeError                 (* [timedelta(seconds=None)] *)
| ExpatError                (* [minidom.parseString] on malformed XML *)
| MissingSchema             (* [requests.get(None)] *)
| NetworkError (reason : string)  (* raised by the HTTP or WMS client *)
| OtherError (class : string).    (* any other exception, by its class *)

Inductive result (A : Type) : Type :=
| Ok (a : A)
| Raise (e : exn).

Arguments Ok {A} a.
Arguments Raise {A} e.

(* ===================================================================== *)
(** ** XML documents ([xml.dom.minidom]) *)
(* ===================================================================== *)

(** The nodes of a parsed document.  [Text] also stands for CDATA
    sections; both carry their text as [nodeValue]. *)
Inductive Node : Type :=
| Element (tagName : string) (childNodes : list Node)
| Text (data : string)
| Comment (data : string).

(** A document, given by the child nodes of its document node. *)
Definition Document : Type := list Node.

Definition childNodes_of (n : Node) : list Node :=
  match n with
  | Element _ cs => cs
  | _ => []
  end.

Definition nodeValue (n : Node) : option string :=
  match n with
  | Element _ _ => None
  | Text d => Some d
  | Comment d => Some d
  end.

(** minidom's [_get_elements_by_tagName_helper]: the descendant elements
    in document order for which [name == "*" or node.tagName == name]. *)
Fixpoint get_elements_by_tagName_helper (name : string) (n : Node) : list Node :=
  match n with
  | Element t cs =>
      ((if String.eqb name "*" || String.eqb t name then [n] else [])
       ++ flat_map (get_elements_by_tagName_helper name) cs)%list
  | _ => []
  end.

Definition getElementsByTagName (doc : Document) (name : string) : list Node :=
  flat_map (get_elements_by_tagName_helper name) doc.

(** The tag names of all the elements below (and including) a node. *)
Fixpoint tag_names (n : Node) : list string :=
  match n with
  | Element t cs => t :: flat_map tag_names cs
  | _ => []
  end.

Definition document_tag_names (doc : Document) : list string :=
  flat_map tag_names doc.

(* ===================================================================== *)
(** ** Geometries, points and the external collaborators *)
(* ===================================================================== *)

(** A GEOS geometry: its coordinates (kept abstract) and its SRID. *)
Record Geometry (Shape : Type) : Type := {
  geom_shape : Shape;
  geom_srid : option Z
}.

Arguments geom_shape {Shape} _.
Arguments geom_srid {Shape} _.

(** [Point(x, y, srid=...)]. *)
Record Point (Coord : Type) : Type := {
  point_x : Coord;
  point_y : Coord;
  point_srid : Z
}.

Arguments point_x {Coord} _.
Arguments point_y {Coord} _.
Arguments point_srid {Coord} _.

(** The arguments of [WebMapService(url, version).getfeatureinfo(...)]. *)
Record WmsRequest (Coord : Type) : Type := {
  wms_url : string;
  wms_version : string;
  wms_layers : list string;
  wms_bbox : list Coord;
  wms_size : list Z;
  wms_xy : list Z;
  wms_srs : string;
  wms_info_format : string
}.

Arguments wms_url {Coord} _.
Arguments wms_version {Coord} _.
Arguments wms_layers {Coord} _.
Arguments wms_bbox {Coord} _.
Arguments wms_size {Coord} _.
Arguments wms_xy {Coord} _.
Arguments wms_srs {Coord} _.
Arguments wms_info_format {Coord} _.

(** What the engine takes from outside this code: floating-point
    coordinates and GEOS shapes, the helpers of [geocontext.utilities],
    the XML parser and the two network clients. *)
Class Externals : Type := {
  Coord : Type;
  Shape : Type;
  (** [str(i)] on a float *)
  str_coord : Coord -> string;
  (** [geocontext.utilities.convert_coordinate(x, y, srid_from, srid_to)] *)
  convert_coordinate : Coord -> Coord -> Z -> option Z -> Coord * Coord;
  (** [geocontext.utilities.get_bbox(x, y)] *)
  get_bbox : Coord -> Coord -> list Coord;
  (** [geocontext.utilities.parse_gml_geometry(content, workspace)] *)
  parse_gml_geometry : string -> option string -> option (Geometry Shape);
  (** [bool(geometry)] of a GEOS geometry (its [__len__] is not zero) *)
  geos_bool : Shape -> bool;
  (** [geometry.contains(point)] *)
  geos_contains : Geometry Shape -> Point Coord -> bool;
  (** [minidom.parseString]: the document, or the exception the parser
      raises ([ExpatError] on XML that is not well formed) *)
  minidom_parseString : string -> result Document;
  (** [requests.get(url).content], as the [n]-th request the engine
      sends: the upstream may answer differently every time *)
  requests_get : nat -> string -> result string;
  (** [WebMapService(url, version)]: the constructor requests the
      capabilities of the service *)
  wms_getcapabilities : nat -> string -> string -> result unit;
  (** [wms.getfeatureinfo(...)]: [response.read()] and [response.geturl()] *)
  wms_getfeatureinfo : nat -> WmsRequest Coord -> result (string * option string)
}.

(** A network call that was issued. *)
Inductive NetCall `{Externals} : Type :=
| HttpGet (u : string)
| WmsGetCapabilities (u version : string)
| WmsGetFeatureInfo (r : WmsRequest Coord).

(** Modelled from the spec: the Django model [ContextCache]
    ([geocontext/models/context_cache.py] is not among the sources), the
    spec's CacheEntry: descriptor key, name, value, an optional geometry,
    source URI and expiry time, with the field names the engine uses.
    [service_registry] holds the (unique) key of the registry row the
    entry belongs to; [cache_pk] is the primary key [save()] assigns;
    [geometry] is [None] for a row saved without [set_geometry_field]. *)
Record ContextCache `{Externals} : Type := {
  cache_pk : nat;
  service_registry : string;
  cache_name : string;
  value : option string;
  expired_time : Z;
  source_uri : option string;
  geometry : option (Geometry Shape)
}.

(** Modelled from the spec: a row of the Django model
    [ContextGroupServices] ([geocontext/models/context_group_services.py]
    is not among the sources), one service key of the ordered list of a
    group: the group, the key of the registry and the position. *)
Record ContextGroupServices : Type := {
  context_group : string;
  context_service_registry : string;
  order : Z
}.

(** The state the engine runs in: the database tables, the UTC clock
    and the log of the network calls issued so far (latest first). *)
Record World `{Externals} : Type := {
  registries : list ContextServiceRegistry;
  caches : list ContextCache;
  group_services : list ContextGroupServices;
  next_pk : nat;
  utcnow : Z;
  network_log : list NetCall
}.

(* ===================================================================== *)
(** ** The state-and-error monad *)
(* ===================================================================== *)

(** A computation reads and updates the [World] and either returns a
    value or raises; what it did to the world before raising stays done
    (Django commits each query as it is issued). *)
Definition M `{Externals} (A : Type) : Type := World -> result A * World.

Definition ret `{Externals} {A : Type} (a : A) : M A :=
  fun w => (Ok a, w).

Definition raise `{Externals} {A : Type} (e : exn) : M A :=
  fun w => (Raise e, w).

Definition bind `{Externals} {A B : Type} (m : M A) (k : A -> M B) : M B :=
  fun w =>
    match m w with
    | (Ok a, w') => k a w'
    | (Raise e, w') => (Raise e, w')
    end.

(** A pure computation that may raise, run inside [M]. *)
Definition lift `{Externals} {A : Type} (r : result A) : M A :=
  fun w => (r, w).

Declare Scope py_scope.
Delimit Scope py_scope with py.

Notation "x <- m ;; k" := (bind m (fun x => k))
  (at level 61, m at next level, right associativity) : py_scope.
Notation "m ;;; k" := (bind m (fun _ => k))
  (at level 61, right associativity) : py_scope.

Local Open Scope py_scope.

(* ===================================================================== *)
(** ** [ContextServiceRegistry]: the methods *)
(* ===================================================================== *)

Section Registry.

Context `{E : Externals}.

(** [a != b] for an [int] and a nullable integer field. *)
Definition int_ne_opt (a : Z) (b : option Z) : bool :=
  match b with
  | Some b' => negb (Z.eqb a b')
  | None => true
  end.

(** [','.join([str(i) for i in bbox])] as [build_query_url] computes it,
    after projecting the point into the registry's SRID. *)
Definition bbox_string (self : ContextServiceRegistry)
    (x y : Coord) (srid_ : Z) : string :=
  let '(x', y') :=
    if int_ne_opt srid_ (srid self)
    then convert_coordinate x y srid_ (srid self)
    else (x, y) in
  PyStr.join "," (map str_coord (get_bbox x' y')).

(** The [parameters] dict of [build_query_url]. *)
Definition wfs_parameters (self : ContextServiceRegistry)
  : list (string * string) :=
  [ ("SERVICE", "WFS");
    ("REQUEST", "GetFeature");
    ("VERSION", service_version self);
    ("TYPENAME", layer_typename self);
    ("OUTPUTFORMAT", "GML3") ].

(** [ContextServiceRegistry.build_query_url]; [None] is Python's [None],
    returned for every query type other than WFS. *)
Definition build_query_url (self : ContextServiceRegistry)
    (x y : Coord) (srid_ : Z) : option string :=
  if String.eqb (query_type self) WFS then
    let bbox_string := bbox_string self x y srid_ in
    let query := UrlEncode.urlencode (wfs_parameters self) in
    let url0 :=
      if PyStr.contains_char "?" (url self)
      then url self ++ "&" ++ query
      else url self ++ "?" ++ query in
    let url1 :=
      if negb (PyStr.contains_char ":" (layer_typename self))
      then url0 ++ "&SRSNAME=" ++ PyStr.str_opt_int (srid self)
      else url0 in
    Some (url1 ++ "&BBOX=" ++ bbox_string)
  else None.

(** [ContextServiceRegistry.parse_request_value].  The [IndexError] of
    either [[0]] is caught and gives [None]; what [parseString] raises
    ([ExpatError] on malformed XML) is raised outside the [try]. *)
Definition parse_request_value (self : ContextServiceRegistry)
    (request_content : string) : result (option string) :=
  if String.eqb (query_type self) WFS || String.eqb (query_type self) WMS then
    match minidom_parseString request_content with
    | Raise e => Raise e
    | Ok xmldoc =>
        match getElementsByTagName xmldoc (result_regex self) with
        | [] => Ok None
        | value_dom :: _ =>
            match childNodes_of value_dom with
            | [] => Ok None
            | first :: _ => Ok (nodeValue first)
            end
        end
    end
  else Ok None.

(** *** The network clients, logging each call *)

Definition log_call (c : NetCall) : M unit :=
  fun w => (Ok tt,
            {| registries := registries w; caches := caches w;
               group_services := group_services w;
               next_pk := next_pk w; utcnow := utcnow w;
               network_log := c :: network_log w |}).

(** The world with one more call in its network log. *)
Definition logged (c : NetCall) (w : World) : World :=
  snd (log_call c w).

(** The number of requests sent so far. *)
Definition request_number : M nat :=
  fun w => (Ok (List.length (network_log w)), w).

(** [requests.get(url).content]; [requests.get(None)] raises
    [MissingSchema] before anything is sent. *)
Definition http_get (u : option string) : M string :=
  match u with
  | None => raise MissingSchema
  | Some u' =>
      n <- request_number ;;
      log_call (HttpGet u') ;;; lift (requests_get n u')
  end.

(** [wms = WebMapService(url, version)] followed by
    [wms.getfeatureinfo(...)]: two requests, the second one sent only
    when the first one succeeded. *)
Definition wms_call (r : WmsRequest Coord) : M (string * option string) :=
  n <- request_number ;;
  log_call (WmsGetCapabilities (wms_url r) (wms_version r)) ;;;
  lift (wms_getcapabilities n (wms_url r) (wms_version r)) ;;;
  m <- request_number ;;
  log_call (WmsGetFeatureInfo r) ;;; lift (wms_getfeatureinfo m r).

(** *** The cache table *)

Definition get_utcnow : M Z := fun w => (Ok (utcnow w), w).

(** [context_cache.save()] of a new row (followed by
    [refresh_from_db()]): the row gets the next primary key. *)
Definition save_new (mk : nat -> ContextCache) : M ContextCache :=
  fun w =>
    let c := mk (next_pk w) in
    (Ok c,
     {| registries := registries w; caches := (caches w ++ [c])%list;
        group_services := group_services w;
        next_pk := S (next_pk w); utcnow := utcnow w;
        network_log := network_log w |}).

(** [cache.delete()]: the row with this primary key goes. *)
Definition delete (c : ContextCache) : M unit :=
  fun w =>
    (Ok tt,
     {| registries := registries w;
        caches := filter (fun c' => negb (Nat.eqb (cache_pk c') (cache_pk c)))
                         (caches w);
        group_services := group_services w;
        next_pk := next_pk w; utcnow := utcnow w;
        network_log := network_log w |}).

(** [if url:] on an optional string. *)
Definition str_truthy (u : option string) : option string :=
  match u with
  | Some EmptyString => None
  | other => other
  end.

(** [if not geometry] on what [parse_gml_geometry] returned: [None] or
    a geometry whose [bool] is false gives [None] here. *)
Definition geometry_truthy (g : option (Geometry Shape))
  : option (Geometry Shape) :=
  match g with
  | Some g' => if geos_bool (geom_shape g') then Some g' else None
  | None => None
  end.

(** [if not geometry.srid: geometry.srid = self.srid]. *)
Definition default_srid (self : ContextServiceRegistry)
    (g : Geometry Shape) : Geometry Shape :=
  match geom_srid g with
  | None | Some 0%Z =>
      {| geom_shape := geom_shape g; geom_srid := srid self |}
  | Some _ => g
  end.

(** The tail of [retrieve_context_value], from [# Create cache here.]:
    build the row, set [source_uri] and the geometry when they are
    truthy, save.  [timedelta(seconds=None)] raises [TypeError]. *)
Definition create_cache (self : ContextServiceRegistry)
    (value_ : option string) (geometry_ : option (Geometry Shape))
    (url_ : option string) : M ContextCache :=
  now <- get_utcnow ;;
  match time_to_live self with
  | None => raise TypeError
  | Some ttl =>
      let expired := (now + ttl)%Z in
      save_new (fun pk =>
        {| cache_pk := pk;
           service_registry := key self;
           cache_name := key self;
           value := value_;
           expired_time := expired;
           source_uri := str_truthy url_;
           geometry := geometry_truthy geometry_ |})
  end.

(** The geometry [retrieve_context_value] reads from a response: with
    the workspace [layer_typename.split(':')[0]] when the layer typename
    has a [:], without a workspace argument otherwise. *)
Definition parse_geometry (self : ContextServiceRegistry)
    (content : string) : option (Geometry Shape) :=
  if PyStr.contains_char ":" (layer_typename self)
  then parse_gml_geometry content
         (Some (PyStr.before_char ":" (layer_typename self)))
  else parse_gml_geometry content None.

(** [ContextServiceRegistry.retrieve_context_value]. *)
Definition retrieve_context_value (self : ContextServiceRegistry)
    (x y : Coord) (srid_ : Z) : M (option ContextCache) :=
  if String.eqb (query_type self) WMS then
    response <- wms_call
      {| wms_url := url self;
         wms_version := service_version self;
         wms_layers := [layer_typename self];
         wms_bbox := get_bbox x y;
         wms_size := [101; 101]%Z;
         wms_xy := [50; 50]%Z;
         wms_srs := "EPSG:" ++ PyStr.str_int srid_;
         wms_info_format := "application/vnd.ogc.gml" |} ;;
    let content := fst response in
    value_ <- lift (parse_request_value self content) ;;
    c <- create_cache self value_ None (snd response) ;;
    ret (Some c)
  else
    let url_ := build_query_url self x y srid_ in
    content <- http_get url_ ;;
    let geometry_ := parse_geometry self content in
    match geometry_truthy geometry_ with
    | None => ret None
    | Some g =>
        let g' := default_srid self g in
        value_ <- lift (parse_request_value self content) ;;
        c <- create_cache self value_ (Some g') url_ ;;
        ret (Some c)
    end.

End Registry.

(* ===================================================================== *)
(** ** [geocontext.models.utilities.retrieve_context] *)
(* ===================================================================== *)

Section Retrieve.

Context `{E : Externals}.

(** [ContextServiceRegistry.objects.get(key=k)]. *)
Definition objects_get (k : string) : M ContextServiceRegistry :=
  fun w =>
    match filter (fun r => String.eqb (key r) k) (registries w) with
    | [] => (Raise DoesNotExist, w)
    | [r] => (Ok r, w)
    | _ => (Raise MultipleObjectsReturned, w)
    end.

(** [ContextCache.objects.filter(service_registry=r)], in table order. *)
Definition objects_filter (r : ContextServiceRegistry) : M (list ContextCache) :=
  fun w =>
    (Ok (filter (fun c => String.eqb (service_registry c) (key r)) (caches w)), w).

(** The point the containment test is made with, in SRID 4326. *)
Definition query_point (x y : Coord) (srid_ : Z) : Point Coord :=
  if negb (Z.eqb srid_ 4326) then
    let '(x', y') := convert_coordinate x y srid_ (Some 4326%Z) in
    {| point_x := x'; point_y := y'; point_srid := 4326 |}
  else
    {| point_x := x; point_y := y; point_srid := 4326 |}.

(** The [for cache in caches] loop.  [Some cache] is the [return cache]
    inside the loop; [None] is leaving the loop, at its end or by
    [break].  [cache.geometry] of a row without geometry is [None], and
    [None.contains] raises [AttributeError]. *)
Fixpoint scan_caches (point : Point Coord) (l : list ContextCache)
  : M (option ContextCache) :=
  match l with
  | [] => ret None
  | cache :: rest =>
      match geometry cache with
      | None => raise AttributeError
      | Some g =>
          if geos_contains g point then
            now <- get_utcnow ;;
            if (now <? expired_time cache)%Z then ret (Some cache)
            else delete cache ;;; ret None
          else scan_caches point rest
      end
  end.

(** [retrieve_context(x, y, service_registry_key, srid)].  The test
    [if not service_registry] never fires: [objects.get] raises when no
    row is found and a model instance is truthy. *)
Definition retrieve_context (x y : Coord) (service_registry_key : string)
    (srid_ : Z) : M (option ContextCache) :=
  let point := query_point x y srid_ in
  service_registry_ <- objects_get service_registry_key ;;
  caches_ <- objects_filter service_registry_ ;;
  hit <- scan_caches point caches_ ;;
  match hit with
  | Some cache => ret (Some cache)
  | None => retrieve_context_value service_registry_ x y srid_
  end.

(** *** [ContextGroupValue] *)

Fixpoint insert_by_order (s : ContextGroupServices)
    (l : list ContextGroupServices) : list ContextGroupServices :=
  match l with
  | [] => [s]
  | t :: r => if (order t <? order s)%Z then t :: insert_by_order s r
              else s :: l
  end.

(** [ContextGroupServices.objects.filter(context_group=g).order_by('order')]. *)
Definition group_services_of (g : string) (w : World)
  : list ContextGroupServices :=
  fold_right insert_by_order []
    (filter (fun s => String.eqb (context_group s) g) (group_services w)).

(** The loop of [populate_service_registry_values]: resolve each key in
    turn and append what [retrieve_context] returns. *)
Fixpoint resolve_each (x y : Coord) (srid_ : Z)
    (services : list ContextGroupServices)
    (service_registry_values : list (option ContextCache))
  : M (list (option ContextCache)) :=
  match services with
  | [] => ret service_registry_values
  | s :: rest =>
      context_cache <- retrieve_context x y (context_service_registry s) srid_ ;;
      resolve_each x y srid_ rest
        (service_registry_values ++ [context_cache])%list
  end.

(** [ContextGroupValue.populate_service_registry_values] for the group
    with key [g]; the result is [self.service_registry_values]. *)
Definition populate_service_registry_values (x y : Coord)
    (g : string) (srid_ : Z) : M (list (option ContextCache)) :=
  fun w => resolve_each x y srid_ (group_services_of g w) [] w.

(** *** States the engine can be in

    Primary keys are unique and below [next_pk]; a cache row lacks a
    geometry exactly when the registry it belongs to is a WMS one (the
    two branches of [retrieve_context_value]). *)
Definition cache_row_ok (w : World) (c : ContextCache) : Prop :=
  cache_pk c < next_pk w /\
  forall r, In r (registries w) -> key r = service_registry c ->
       (geometry c = None <-> query_type r = WMS).

Definition world_inv (w : World) : Prop :=
  NoDup (map cache_pk (caches w)) /\
  Forall (cache_row_ok w) (caches w).

(** Whether the geometry of a row contains a point; a row without a
    geometry contains none. *)
Definition covers (c : ContextCache) (p : Point Coord) : bool :=
  match geometry c with
  | Some g => geos_contains g p
  | None => false
  end.

(** The rows of a registry, as the lookup scans them. *)
Definition caches_of (w : World) (r : ContextServiceRegistry)
  : list ContextCache :=
  filter (fun c => String.eqb (service_registry c) (key r)) (caches w).

(** The world after [c] was deleted. *)
Definition without (c : ContextCache) (w : World) : World :=
  snd (delete c w).

(** The world when the clock shows [t]. *)
Definition at_time (t : Z) (w : World) : World :=
  {| registries := registries w; caches := caches w;
     group_services := group_services w;
     next_pk := next_pk w; utcnow := t;
     network_log := network_log w |}.

End Retrieve.

(* ===================================================================== *)
(** ** A small concrete deployment

    Integer coordinates, axis-parallel boxes as shapes, and three
    upstream services whose answers are fixed; used to run the engine on
    concrete inputs. *)
(* ===================================================================== *)

Module Demo.

Definition Box : Type := (Z * Z * Z * Z)%type.

Definition box_contains (g : Geometry Box) (p : Point Z) : bool :=
  let '(xmin, ymin, xmax, ymax) := geom_shape g in
  ((xmin <=? point_x p) && (point_x p <=? xmax) &&
   (ymin <=? point_y p) && (point_y p <=? ymax))%Z.

Definition soil_payload : string :=
  "<wfs><box>0,0,100,100</box><type>clay</type></wfs>".
Definition wide_payload : string :=
  "<wfs><box>5,5,200,200</box><type>loam</type></wfs>".
Definition bare_payload : string :=
  "<wfs><type>clay</type></wfs>".
Definition rain_payload : string :=
  "<ms><value>42</value></ms>".
Definition flat_payload : string :=
  "<type>clay</type>".
Definition broken_payload : string :=
  "<wfs><type>cl".

Definition soil_doc : Document :=
  [Element "wfs" [Element "box" [Text "0,0,100,100"];
                  Element "type" [Text "clay"]]].
Definition wide_doc : Document :=
  [Element "wfs" [Element "box" [Text "5,5,200,200"];
                  Element "type" [Text "loam"]]].
Definition bare_doc : Document :=
  [Element "wfs" [Element "type" [Text "clay"]]].
Definition rain_doc : Document :=
  [Element "ms" [Element "value" [Text "42"]]].
Definition flat_doc : Document :=
  [Element "type" [Text "clay"]].

Definition parse_xml (content : string) : result Document :=
  if String.eqb content soil_payload then Ok soil_doc
  else if String.eqb content wide_payload then Ok wide_doc
  else if String.eqb content bare_payload then Ok bare_doc
  else if String.eqb content rain_payload then Ok rain_doc
  else if String.eqb content flat_payload then Ok flat_doc
  else Raise ExpatError.

Definition parse_gml (content : string) (workspace : option string)
  : option (Geometry Box) :=
  if String.eqb content soil_payload
  then Some {| geom_shape := (0, 0, 100, 100)%Z; geom_srid := None |}
  else if String.eqb content wide_payload
  then Some {| geom_shape := (5, 5, 200, 200)%Z; geom_srid := None |}
  else None.

(** [s.endswith(suffix)]. *)
Definition ends_with (suffix s : string) : bool :=
  String.eqb
    (String.substring (String.length s - String.length suffix)
       (String.length suffix) s)
    suffix.

(** The soil service answers with the feature that meets the requested
    box: a wide one around (150, 150), a smaller one elsewhere; the two
    features overlap. *)
Definition http (n : nat) (u : string) : result string :=
  if String.prefix "http://svc/wfs" u then
    if ends_with "&BBOX=149,149,151,151" u then Ok wide_payload
    else Ok soil_payload
  else if String.prefix "http://bare/wfs" u then Ok bare_payload
  else if String.prefix "http://rest/api" u then Ok "temperature=21"
  else Raise (NetworkError "connection refused").

Definition wms (n : nat) (r : WmsRequest Z)
  : result (string * option string) :=
  Ok (rain_payload, Some (wms_url r ++ "?REQUEST=GetFeatureInfo")).

#[export] Instance env : Externals := {|
  Coord := Z;
  Shape := Box;
  str_coord := PyStr.str_int;
  convert_coordinate := fun x y _ _ => (x, y);
  get_bbox := fun x y => [x - 1; y - 1; x + 1; y + 1]%Z;
  parse_gml_geometry := parse_gml;
  geos_bool := fun _ => true;
  geos_contains := box_contains;
  minidom_parseString := parse_xml;
  requests_get := http;
  wms_getcapabilities := fun _ _ _ => Ok tt;
  wms_getfeatureinfo := wms
|}.

Definition registry (k u qt rule layer : string) : ContextServiceRegistry :=
  {| key := k; name := k; description := None; url := u;
     user := None; password := None; api_key := None; query_url := None;
     query_type := qt; result_regex := rule;
     time_to_live := Some 604800%Z; srid := Some 4326%Z;
     layer_typename := layer; service_version := "2.0.0" |}.

Definition soil : ContextServiceRegistry :=
  registry "soil" "http://svc/wfs" WFS "type" "ns:layer".
Definition soil_plain : ContextServiceRegistry :=
  registry "soil_plain" "http://svc/wfs?map=a" WFS "type" "layer".
Definition bare : ContextServiceRegistry :=
  registry "bare" "http://bare/wfs" WFS "type" "layer".
Definition down : ContextServiceRegistry :=
  registry "down" "http://down/wfs" WFS "type" "layer".
Definition rain : ContextServiceRegistry :=
  registry "rain" "http://svc/wms" WMS "value" "rain".
Definition weather : ContextServiceRegistry :=
  registry "weather" "http://rest/api" REST "temperature=(\d+)" "t".
Definition any_tag : ContextServiceRegistry :=
  registry "any" "http://svc/wfs" WFS "*" "ns:layer".

Definition row (pk : nat) (k : string) (v : string) (expires : Z)
    (g : option Box) : ContextCache :=
  {| cache_pk := pk; service_registry := k; cache_name := k;
     value := Some v; expired_time := expires; source_uri := None;
     geometry := option_map
       (fun b => {| geom_shape := b; geom_srid := Some 4326%Z |}) g |}.

Definition world (cs : list ContextCache) (gs : list ContextGroupServices)
    (pk : nat) (now : Z) : World :=
  {| registries := [soil; soil_plain; bare; down; rain; weather; any_tag];
     caches := cs; group_services := gs;
     next_pk := pk; utcnow := now; network_log := [] |}.

(** An empty cache. *)
Definition fresh : World := world [] [] 0 1000.

(** Soil rows: two that cover the point (10, 20), the first of which
    expired at time 500 while the second lives until 5000, and one far
    away. *)
Definition stale_row : ContextCache :=
  row 0 "soil" "sand" 500 (Some (0, 0, 50, 50)%Z).
Definition live_row : ContextCache :=
  row 1 "soil" "clay" 5000 (Some (5, 5, 100, 100)%Z).
Definition far_row : ContextCache :=
  row 2 "soil" "loam" 5000 (Some (200, 200, 300, 300)%Z).
Definition covered : World :=
  world [far_row; live_row] [] 3 1000.
Definition expired_only : World :=
  world [far_row; stale_row; live_row] [] 3 1000.

(** A run of the engine from the empty cache: the soil registry is
    resolved at (10, 20) at time 1000, then at (150, 150) at time 600000;
    [overlapping] is the state this leaves, seen at time 700000.  The row
    of the first resolution expired at 605800, the row of the second one
    lives until 1204800, and both cover (10, 20). *)
Definition after_first : World :=
  snd (retrieve_context 10%Z 20%Z "soil" 4326%Z fresh).
Definition after_second : World :=
  snd (retrieve_context 150%Z 150%Z "soil" 4326%Z (at_time 600000 after_first)).
Definition overlapping : World := at_time 700000 after_second.

(** The same state seen at time 1300000, when both rows have expired. *)
Definition both_stale : World := at_time 1300000 overlapping.

Definition first_row : ContextCache :=
  {| cache_pk := 0; service_registry := "soil"; cache_name := "soil";
     value := Some "clay"; expired_time := 605800;
     source_uri :=
       Some ("http://svc/wfs?SERVICE=WFS&REQUEST=GetFeature&VERSION=2.0.0"
             ++ "&TYPENAME=ns%3Alayer&OUTPUTFORMAT=GML3&BBOX=9,19,11,21");
     geometry := Some {| geom_shape := (0, 0, 100, 100)%Z;
                         geom_srid := Some 4326%Z |} |}.
Definition second_row : ContextCache :=
  {| cache_pk := 1; service_registry := "soil"; cache_name := "soil";
     value := Some "loam"; expired_time := 1204800;
     source_uri :=
       Some ("http://svc/wfs?SERVICE=WFS&REQUEST=GetFeature&VERSION=2.0.0"
             ++ "&TYPENAME=ns%3Alayer&OUTPUTFORMAT=GML3&BBOX=149,149,151,151");
     geometry := Some {| geom_shape := (5, 5, 200, 200)%Z;
                         geom_srid := Some 4326%Z |} |}.

(** A group of three services whose second one cannot be reached. *)
Definition trio : list ContextGroupServices :=
  [ {| context_group := "g"; context_service_registry := "soil"; order := 1 |};
    {| context_group := "g"; context_service_registry := "down"; order := 2 |};
    {| context_group := "g"; context_service_registry := "rain"; order := 3 |} ].
Definition grouped : World := world [] trio 0 1000.

(** A group whose services all answer. *)
Definition duo : list ContextGroupServices :=
  [ {| context_group := "g"; context_service_registry := "rain"; order := 2 |};
    {| context_group := "g"; context_service_registry := "soil"; order := 1 |} ].
Definition paired : World := world [] duo 0 1000.

End Demo.

(* ===================================================================== *)
(** ** The serializer and the value object of a context group *)
(* ===================================================================== *)

Section Group.

Context `{E : Externals}.

(** [ContextGroupSerializer.get_context_service_registry_keys]: the keys
    of the registries of the group, in the order of the query. *)
Definition get_context_service_registry_keys (g : string) (w : World)
  : list string :=
  map context_service_registry (group_services_of g w).

(** Modelled from the spec: the Django model [ContextGroup]
    ([geocontext/models/context_group.py] is not among the sources), with
    the fields the serializer lists: key, name and description. *)
Record ContextGroup : Type := {
  group_key : string;
  group_name : string;
  group_description : option string
}.

(** What leaves a view: [Http404] of [get_object_or_404], or an
    exception of the engine passing through. *)
Inductive view_exn : Type :=
| Http404
| Propagated (e : exn).

Inductive view_result (A : Type) : Type :=
| Returned (a : A)
| Aborted (e : view_exn).

Arguments Returned {A} a.
Arguments Aborted {A} e.

(** The attributes of a [ContextGroupValue] object. *)
Record ContextGroupValue : Type := {
  cgv_x : Coord;
  cgv_y : Coord;
  cgv_context_group : ContextGroup;
  cgv_key : string;
  cgv_name : string;
  cgv_srid : Z;
  cgv_service_registry_values : list (option ContextCache)
}.

(** [ContextGroupValue.__init__], over the table [groups] of context
    groups.  [get_object_or_404] turns [DoesNotExist] into [Http404] and
    lets [MultipleObjectsReturned] through; the services looked up are
    those of the group found. *)
Definition ContextGroupValue_init (groups : list ContextGroup)
    (x y : Coord) (context_group_key : string) (srid_ : Z)
  : World -> view_result ContextGroupValue * World :=
  fun w =>
    match filter (fun g => String.eqb (group_key g) context_group_key) groups with
    | [] => (Aborted Http404, w)
    | [context_group_] =>
        match populate_service_registry_values x y
                (group_key context_group_) srid_ w with
        | (Ok values, w') =>
            (Returned {| cgv_x := x; cgv_y := y;
                         cgv_context_group := context_group_;
                         cgv_key := group_key context_group_;
                         cgv_name := group_name context_group_;
                         cgv_srid := srid_;
                         cgv_service_registry_values := values |}, w')
        | (Raise e, w') => (Aborted (Propagated e), w')
        end
    | _ => (Aborted (Propagated MultipleObjectsReturned), w)
    end.

(** *** Documents in document order *)

(** The elements below (and including) a node, in document order. *)
Fixpoint node_elements (n : Node) : list Node :=
  match n with
  | Element t cs => n :: flat_map node_elements cs
  | _ => []
  end.

Definition document_elements (doc : Document) : list Node :=
  flat_map node_elements doc.

(** Whether an element is selected by a tag name: the wildcard selects
    every element. *)
Definition tag_selected (name : string) (n : Node) : bool :=
  match n with
  | Element t _ => String.eqb name "*" || String.eqb t name
  | _ => false
  end.

(** The text a selected element gives: the [nodeValue] of its first
    child, nothing when it has no child. *)
Definition first_child_value (n : Node) : option string :=
  match childNodes_of n with
  | [] => None
  | first :: _ => nodeValue first
  end.

(** *** Rows of the cache table *)

(** The rows of the other registries. *)
Definition caches_of_others (w : World) (k : string) : list ContextCache :=
  filter (fun c => negb (String.eqb (service_registry c) k)) (caches w).

(** The request [retrieve_context_value] sends for a WMS registry. *)
Definition wms_request (self : ContextServiceRegistry) (x y : Coord)
    (srid_ : Z) : WmsRequest Coord :=
  {| wms_url := url self;
     wms_version := service_version self;
     wms_layers := [layer_typename self];
     wms_bbox := get_bbox x y;
     wms_size := [101; 101]%Z;
     wms_xy := [50; 50]%Z;
     wms_srs := "EPSG:" ++ PyStr.str_int srid_;
     wms_info_format := "application/vnd.ogc.gml" |}.

End Group.

Arguments Returned {A} a.
Arguments Aborted {A} e.

(** *** Groups on the concrete deployment *)

Module DemoGroup.

#[local] Existing Instance Demo.env.

Definition groups : list ContextGroup :=
  [ {| group_key := "g"; group_name := "Ground";
       group_description := None |};
    {| group_key := "h"; group_name := "Hydrology";
       group_description := None |} ].

(** A WMS registry that has been resolved once. *)
Definition rained : World (H := Demo.env) :=
  snd (retrieve_context (E := Demo.env) 10%Z 20%Z "rain" 4326%Z Demo.fresh).

(** The row of that resolution. *)
Definition rain_row : ContextCache (H := Demo.env) :=
  {| cache_pk := 0; service_registry := "rain"; cache_name := "rain";
     value := Some "42"; expired_time := 605800;
     source_uri := Some "http://svc/wms?REQUEST=GetFeatureInfo";
     geometry := None |}.

(** A soil row whose region lies beside the point (10, 20). *)
Definition beside : World (H := Demo.env) :=
  Demo.world [Demo.far_row] [] 3 1000.

(** A WFS registry whose time to live was left null. *)
Definition timeless : ContextServiceRegistry :=
  {| key := "timeless"; name := "timeless"; description := None;
     url := "http://svc/wfs"; user := None; password := None;
     api_key := None; query_url := None; query_type := WFS;
     result_regex := "type"; time_to_live := None; srid := Some 4326%Z;
     layer_typename := "ns:layer"; service_version := "2.0.0" |}.

(** The soil registry resolved at (300, 300) on the empty cache: the
    feature the service answers with does not contain that point. *)
Definition outside_row : ContextCache (H := Demo.env) :=
  {| cache_pk := 0; service_registry := "soil"; cache_name := "soil";
     value := Some "clay"; expired_time := 605800;
     source_uri :=
       Some ("http://svc/wfs?SERVICE=WFS&REQUEST=GetFeature&VERSION=2.0.0"
             ++ "&TYPENAME=ns%3Alayer&OUTPUTFORMAT=GML3&BBOX=299,299,301,301");
     geometry := Some {| geom_shape := (0, 0, 100, 100)%Z;
                         geom_srid := Some 4326%Z |} |}.
Definition after_outside : World (H := Demo.env) :=
  snd (retrieve_context (E := Demo.env) 300%Z 300%Z "soil" 4326%Z Demo.fresh).

End DemoGroup.

(* ===================================================================== *)
(** * Properties *)
(* ===================================================================== *)

(** ** Strings *)

Lemma append_assoc (a b c : string) : (a ++ b) ++ c = a ++ (b ++ c).
Proof.
  induction a as [|x a IH]; simpl; [reflexivity | now rewrite IH].
Qed.

Lemma contains_char_In (c : ascii) (s : string) :
  PyStr.contains_char c s = true <-> In c (list_ascii_of_string s).
Proof.
  induction s as [|a s IH]; simpl.
  - split; [discriminate | tauto].
  - rewrite orb_true_iff, IH, Ascii.eqb_eq. tauto.
Qed.

Lemma contains_char_not_In (c : ascii) (s : string) :
  PyStr.contains_char c s = false <-> ~ In c (list_ascii_of_string s).
Proof.
  rewrite <- contains_char_In.
  destruct (PyStr.contains_char c s); split; intros H;
    congruence || reflexivity.
Qed.

Lemma contains_char_append (c : ascii) (a b : string) :
  PyStr.contains_char c (a ++ b)
  = PyStr.contains_char c a || PyStr.contains_char c b.
Proof.
  induction a as [|x a IH]; simpl; [reflexivity|].
  now rewrite IH, orb_assoc.
Qed.

Lemma split_no_sep (c : ascii) (s : string) :
  PyStr.contains_char c s = false -> PyStr.split c s = [s].
Proof.
  induction s as [|a s IH]; simpl; [reflexivity|].
  intros H. apply orb_false_iff in H as [Ha Hs].
  rewrite Ha, (IH Hs). reflexivity.
Qed.

Lemma split_at_sep (c : ascii) (a b : string) :
  PyStr.contains_char c a = false ->
  PyStr.split c (a ++ String c b) = a :: PyStr.split c b.
Proof.
  induction a as [|x a IH]; simpl.
  - intros _. now rewrite Ascii.eqb_refl.
  - intros H. apply orb_false_iff in H as [Hx Ha].
    rewrite Hx, (IH Ha). reflexivity.
Qed.

Lemma before_char_append (c : ascii) (a b : string) :
  PyStr.contains_char c a = false ->
  PyStr.before_char c (a ++ String c b) = a.
Proof.
  induction a as [|x a IH]; simpl.
  - intros _. now rewrite Ascii.eqb_refl.
  - intros H. apply orb_false_iff in H as [Hx Ha].
    rewrite Hx, (IH Ha). reflexivity.
Qed.

Lemma after_char_append (c : ascii) (a b : string) :
  PyStr.contains_char c a = false ->
  PyStr.after_char c (a ++ String c b) = Some b.
Proof.
  induction a as [|x a IH]; simpl.
  - intros _. now rewrite Ascii.eqb_refl.
  - intros H. apply orb_false_iff in H as [Hx Ha].
    rewrite Hx. exact (IH Ha).
Qed.

(** ** URL encoding: what [urlencode] writes reads back as the parameters *)

Module UrlEncodeFacts.
Import UrlEncode.

Lemma unquote_quote_byte (c : ascii) (s : string) :
  unquote_plus (quote_byte c ++ s) = String c (unquote_plus s).
Proof.
  destruct c as [[] [] [] [] [] [] [] []]; reflexivity.
Qed.

Lemma quote_byte_no_amp (c : ascii) :
  PyStr.contains_char "&" (quote_byte c) = false.
Proof.
  destruct c as [[] [] [] [] [] [] [] []]; reflexivity.
Qed.

Lemma quote_byte_no_eq (c : ascii) :
  PyStr.contains_char "=" (quote_byte c) = false.
Proof.
  destruct c as [[] [] [] [] [] [] [] []]; reflexivity.
Qed.

Lemma unquote_plus_quote_plus (s : string) :
  unquote_plus (quote_plus s) = s.
Proof.
  induction s as [|c s IH]; simpl; [reflexivity|].
  now rewrite unquote_quote_byte, IH.
Qed.

Lemma quote_plus_no_amp (s : string) :
  PyStr.contains_char "&" (quote_plus s) = false.
Proof.
  induction s as [|c s IH]; simpl; [reflexivity|].
  now rewrite contains_char_append, quote_byte_no_amp, IH.
Qed.

Lemma quote_plus_no_eq (s : string) :
  PyStr.contains_char "=" (quote_plus s) = false.
Proof.
  induction s as [|c s IH]; simpl; [reflexivity|].
  now rewrite contains_char_append, quote_byte_no_eq, IH.
Qed.

Lemma decode_encode_pair (kv : string * string) :
  decode_pair (encode_pair kv) = kv.
Proof.
  destruct kv as [k v]. unfold decode_pair, encode_pair; simpl.
  rewrite before_char_append, after_char_append by apply quote_plus_no_eq.
  now rewrite !unquote_plus_quote_plus.
Qed.

Lemma encode_pair_no_amp (kv : string * string) :
  PyStr.contains_char "&" (encode_pair kv) = false.
Proof.
  unfold encode_pair. rewrite !contains_char_append, !quote_plus_no_amp.
  reflexivity.
Qed.

(** A query dict that is not empty reads back from its encoding. *)
Lemma decode_query_urlencode (p : string * string) (q : list (string * string)) :
  decode_query (urlencode (p :: q)) = p :: q.
Proof.
  revert p. induction q as [|p' q IH]; intros p.
  - unfold decode_query, urlencode, PyStr.join; simpl.
    rewrite split_no_sep by apply encode_pair_no_amp.
    simpl. now rewrite decode_encode_pair.
  - unfold decode_query, urlencode, PyStr.join in *.
    change (String.concat "&" (map encode_pair (p :: p' :: q)))
      with (encode_pair p ++ String "&" (String.concat "&" (map encode_pair (p' :: q)))).
    rewrite split_at_sep by apply encode_pair_no_amp.
    simpl map at 1. rewrite decode_encode_pair. f_equal. apply IH.
Qed.

End UrlEncodeFacts.

(** ** [build_query_url] *)

Section BuildQueryUrl.

Context `{E : Externals}.

Lemma urlencode_wfs_parameters (self : ContextServiceRegistry) :
  UrlEncode.urlencode (wfs_parameters self)
  = "SERVICE=WFS&REQUEST=GetFeature&VERSION="
    ++ UrlEncode.quote_plus (service_version self)
    ++ "&TYPENAME=" ++ UrlEncode.quote_plus (layer_typename self)
    ++ "&OUTPUTFORMAT=GML3".
Proof. reflexivity. Qed.

(** Every query type but WFS gets no URL. *)
Lemma build_query_url_not_wfs (self : ContextServiceRegistry)
    (x y : Coord) (srid_ : Z) :
  query_type self <> WFS -> build_query_url self x y srid_ = None.
Proof.
  intros H. unfold build_query_url.
  destruct (String.eqb_spec (query_type self) WFS); [contradiction | reflexivity].
Qed.

(** C5.  For a WFS registry, [build_query_url] returns the base URL, a
    joiner, a query string [q] that reads back as exactly the parameters
    SERVICE=WFS, REQUEST=GetFeature, VERSION = the service version,
    TYPENAME = the layer typename and OUTPUTFORMAT=GML3, then
    [&SRSNAME=<srid of the registry>] when the layer typename has no
    [:] and nothing when it has one, then the [&BBOX=] term. *)
Theorem build_query_url_wfs (self : ContextServiceRegistry)
    (x y : Coord) (srid_ : Z) :
  query_type self = WFS ->
  exists sep q : string,
    (sep = "?" \/ sep = "&") /\
    UrlEncode.decode_query q
    = [ ("SERVICE", "WFS"); ("REQUEST", "GetFeature");
        ("VERSION", service_version self);
        ("TYPENAME", layer_typename self);
        ("OUTPUTFORMAT", "GML3") ] /\
    (~ In ":"%char (list_ascii_of_string (layer_typename self)) ->
     build_query_url self x y srid_
     = Some (url self ++ sep ++ q
             ++ "&SRSNAME=" ++ PyStr.str_opt_int (srid self)
             ++ "&BBOX=" ++ bbox_string self x y srid_)) /\
    (In ":"%char (list_ascii_of_string (layer_typename self)) ->
     build_query_url self x y srid_
     = Some (url self ++ sep ++ q
             ++ "&BBOX=" ++ bbox_string self x y srid_)).
Proof.
  intros Hq.
  exists (if PyStr.contains_char "?" (url self) then "&" else "?"),
         (UrlEncode.urlencode (wfs_parameters self)).
  split; [destruct (PyStr.contains_char "?" (url self)); auto|].
  split; [apply UrlEncodeFacts.decode_query_urlencode|].
  unfold build_query_url. rewrite Hq, String.eqb_refl.
  split; intros Hc.
  - apply contains_char_not_In in Hc. rewrite Hc. simpl negb. cbv iota.
    destruct (PyStr.contains_char "?" (url self));
      now rewrite !append_assoc.
  - apply contains_char_In in Hc. rewrite Hc. simpl negb. cbv iota.
    destruct (PyStr.contains_char "?" (url self));
      now rewrite !append_assoc.
Qed.

(** C9.  The first parameter written after the base URL is joined to
    it with [?] when the base URL has no [?] in it, and with [&] when
    it has one. *)
Theorem build_query_url_joiner (self : ContextServiceRegistry)
    (x y : Coord) (srid_ : Z) :
  query_type self = WFS ->
  exists rest : string,
    (~ In "?"%char (list_ascii_of_string (url self)) ->
     build_query_url self x y srid_
     = Some (url self ++ "?" ++ "SERVICE=WFS" ++ rest)) /\
    (In "?"%char (list_ascii_of_string (url self)) ->
     build_query_url self x y srid_
     = Some (url self ++ "&" ++ "SERVICE=WFS" ++ rest)).
Proof.
  intros Hq.
  exists ("&REQUEST=GetFeature&VERSION="
          ++ UrlEncode.quote_plus (service_version self)
          ++ "&TYPENAME=" ++ UrlEncode.quote_plus (layer_typename self)
          ++ "&OUTPUTFORMAT=GML3"
          ++ (if negb (PyStr.contains_char ":" (layer_typename self))
              then "&SRSNAME=" ++ PyStr.str_opt_int (srid self) else "")
          ++ "&BBOX=" ++ bbox_string self x y srid_).
  unfold build_query_url. rewrite Hq, String.eqb_refl.
  rewrite urlencode_wfs_parameters.
  split; intros Hc.
  - apply contains_char_not_In in Hc. rewrite Hc.
    destruct (negb (PyStr.contains_char ":" (layer_typename self)));
      do 3 (rewrite ?append_assoc; simpl); reflexivity.
  - apply contains_char_In in Hc. rewrite Hc.
    destruct (negb (PyStr.contains_char ":" (layer_typename self)));
      do 3 (rewrite ?append_assoc; simpl); reflexivity.
Qed.

End BuildQueryUrl.

Lemma build_query_url_wfs_witness :
  query_type Demo.soil = WFS /\
  exists sep q : string,
    (sep = "?" \/ sep = "&") /\
    UrlEncode.decode_query q
    = [ ("SERVICE", "WFS"); ("REQUEST", "GetFeature"); ("VERSION", "2.0.0");
        ("TYPENAME", "ns:layer"); ("OUTPUTFORMAT", "GML3") ] /\
    build_query_url (E := Demo.env) Demo.soil 10%Z 20%Z 4326%Z
    = Some ("http://svc/wfs" ++ sep ++ q ++ "&BBOX=" ++ "9,19,11,21").
Proof.
  split; [reflexivity|].
  destruct (build_query_url_wfs (E := Demo.env) Demo.soil 10%Z 20%Z 4326%Z
              eq_refl) as (sep & q & Hs & Hq & _ & H).
  exists sep, q. split; [exact Hs|]. split; [exact Hq|].
  apply H. apply contains_char_In. reflexivity.
Defined.

Lemma build_query_url_joiner_witness :
  query_type Demo.soil_plain = WFS /\
  exists rest : string,
    build_query_url (E := Demo.env) Demo.soil_plain 10%Z 20%Z 4326%Z
    = Some ("http://svc/wfs?map=a" ++ "&" ++ "SERVICE=WFS" ++ rest).
Proof.
  split; [reflexivity|].
  destruct (build_query_url_joiner (E := Demo.env) Demo.soil_plain
              10%Z 20%Z 4326%Z eq_refl) as (rest & _ & H).
  exists rest. apply H. apply contains_char_In. reflexivity.
Defined.

(** The URL of the registry with base URL [http://svc/wfs], layer
    [ns:layer] and version [2.0.0] at the point (10, 20): the layer
    typename is written percent-encoded, and there is no SRSNAME. *)
Example build_query_url_soil :
  build_query_url (E := Demo.env) Demo.soil 10%Z 20%Z 4326%Z
  = Some ("http://svc/wfs?SERVICE=WFS&REQUEST=GetFeature&VERSION=2.0.0"
          ++ "&TYPENAME=ns%3Alayer&OUTPUTFORMAT=GML3&BBOX=9,19,11,21").
Proof. reflexivity. Qed.

(** ** [parse_request_value] *)

Lemma Node_ind_nested (P : Node -> Prop) :
  (forall t cs, Forall P cs -> P (Element t cs)) ->
  (forall d, P (Text d)) ->
  (forall d, P (Comment d)) ->
  forall n, P n.
Proof.
  intros HE HT HC. fix IH 1. intros [t cs | d | d]; [|apply HT|apply HC].
  apply HE. induction cs as [|c cs IHcs]; constructor; [apply IH | exact IHcs].
Qed.

Lemma flat_map_nil {A B : Type} (f : A -> list B) (l : list A) :
  Forall (fun a => f a = []) l -> flat_map f l = [].
Proof.
  induction 1 as [|a l Ha _ IH]; simpl; [reflexivity|].
  now rewrite Ha, IH.
Qed.

(** A name that is not the wildcard and is the tag of no element below
    [n] selects nothing below [n]. *)
Lemma get_elements_absent (name : string) (n : Node) :
  name <> "*" -> ~ In name (tag_names n) ->
  get_elements_by_tagName_helper name n = [].
Proof.
  intros Hstar. induction n as [t cs IH | d | d] using Node_ind_nested;
    intros Hn; try reflexivity.
  simpl in *.
  destruct (String.eqb_spec name "*") as [|_]; [contradiction|].
  destruct (String.eqb_spec t name) as [->|_]; [exfalso; auto|].
  simpl. apply flat_map_nil.
  assert (Hcs : ~ In name (flat_map tag_names cs)) by auto.
  clear Hn. induction IH as [|c cs Hc _ IHcs]; constructor.
  - apply Hc. intros Hin. apply Hcs. simpl. apply in_or_app. now left.
  - apply IHcs. intros Hin. apply Hcs. simpl. apply in_or_app. now right.
Qed.

Lemma getElementsByTagName_absent (doc : Document) (name : string) :
  name <> "*" -> ~ In name (document_tag_names doc) ->
  getElementsByTagName doc name = [].
Proof.
  intros Hstar Hn. unfold getElementsByTagName. apply flat_map_nil.
  unfold document_tag_names in Hn.
  induction doc as [|n doc IH]; constructor.
  - apply get_elements_absent; [exact Hstar|].
    intros Hin. apply Hn. simpl. apply in_or_app. now left.
  - apply IH. intros Hin. apply Hn. simpl. apply in_or_app. now right.
Qed.

Section ParseRequestValue.

Context `{E : Externals}.

(** C7 (as amended).  For a WFS or WMS registry: a payload that parses to a document
    in which no element carries the tag named by [result_regex], where
    [result_regex] is not the wildcard [*], gives [None] and raises
    nothing; a payload that does not parse, so that the parser raises
    [ExpatError], raises that [ExpatError]. *)
Theorem parse_request_value_xml (self : ContextServiceRegistry)
    (content : string) :
  query_type self = WFS \/ query_type self = WMS ->
  (forall doc : Document,
      minidom_parseString content = Ok doc ->
      result_regex self <> "*" ->
      ~ In (result_regex self) (document_tag_names doc) ->
      parse_request_value self content = Ok None) /\
  (minidom_parseString content = Raise ExpatError ->
   parse_request_value self content = Raise ExpatError).
Proof.
  intros Hq. unfold parse_request_value.
  assert (Hb : String.eqb (query_type self) WFS
               || String.eqb (query_type self) WMS = true).
  { destruct Hq as [-> | ->]; reflexivity. }
  rewrite Hb. split.
  - intros doc -> Hstar Habs.
    now rewrite getElementsByTagName_absent.
  - now intros ->.
Qed.

(** C8 (as amended).  For a registry whose query type is neither WFS nor WMS (REST
    among them), [parse_request_value] reads neither the payload nor
    [result_regex] and returns [None]; such a registry gets no query
    URL, and resolving it raises before any request is sent and leaves
    the cache, so also its geometries, as they were. *)
Theorem parse_request_value_other_types (self : ContextServiceRegistry)
    (content : string) (x y : Coord) (srid_ : Z) (w : World) :
  query_type self <> WFS -> query_type self <> WMS ->
  parse_request_value self content = Ok None /\
  build_query_url self x y srid_ = None /\
  retrieve_context_value self x y srid_ w = (Raise MissingSchema, w).
Proof.
  intros Hwfs Hwms.
  unfold parse_request_value, retrieve_context_value.
  rewrite (build_query_url_not_wfs self x y srid_ Hwfs).
  destruct (String.eqb_spec (query_type self) WFS); [contradiction|].
  destruct (String.eqb_spec (query_type self) WMS); [contradiction|].
  repeat split.
Qed.

End ParseRequestValue.

Lemma parse_request_value_xml_witness :
  (query_type Demo.soil = WFS \/ query_type Demo.soil = WMS) /\
  parse_request_value (E := Demo.env) Demo.soil Demo.rain_payload = Ok None /\
  parse_request_value (E := Demo.env) Demo.soil Demo.broken_payload
  = Raise ExpatError.
Proof.
  split; [left; reflexivity|].
  split.
  - apply (proj1 (parse_request_value_xml (E := Demo.env) Demo.soil
                    Demo.rain_payload (or_introl eq_refl)) Demo.rain_doc).
    + reflexivity.
    + discriminate.
    + vm_compute. intros [H | [H | H]]; [discriminate H | discriminate H | exact H].
  - apply (proj2 (parse_request_value_xml (E := Demo.env) Demo.soil
                    Demo.broken_payload (or_introl eq_refl))).
    reflexivity.
Defined.

(** The registry [any_tag] extracts with the rule [*].  The payload
    [<type>clay</type>] parses and its only element has the tag name
    [type], not [*]; yet the value [clay] comes back. *)
Lemma parse_request_value_wildcard_counterexample :
  ~ (forall (self : ContextServiceRegistry) (content : string) (doc : Document),
        query_type self = WFS \/ query_type self = WMS ->
        minidom_parseString (Externals := Demo.env) content = Ok doc ->
        ~ In (result_regex self) (document_tag_names doc) ->
        parse_request_value (E := Demo.env) self content = Ok None).
Proof.
  intros H.
  assert (Habs : ~ In (result_regex Demo.any_tag)
                      (document_tag_names Demo.flat_doc)).
  { vm_compute. intros [H' | H']; [discriminate H' | exact H']. }
  specialize (H Demo.any_tag Demo.flat_payload Demo.flat_doc
                (or_introl eq_refl) eq_refl Habs).
  discriminate H.
Qed.

Lemma parse_request_value_other_types_witness :
  query_type Demo.weather <> WFS /\ query_type Demo.weather <> WMS /\
  parse_request_value (E := Demo.env) Demo.weather "temperature=21" = Ok None.
Proof.
  split; [discriminate|]. split; [discriminate|].
  apply (parse_request_value_other_types (E := Demo.env) Demo.weather
           "temperature=21" 10%Z 20%Z 4326%Z Demo.fresh); discriminate.
Defined.

(** The REST registry [weather] has the rule [temperature=(\d+)], whose
    first group on the payload [temperature=21] is [21]; the parser
    returns no value. *)
Lemma parse_request_value_rest_counterexample :
  parse_request_value (E := Demo.env) Demo.weather "temperature=21"
  <> Ok (Some "21").
Proof. discriminate. Qed.

(** ** [retrieve_context_value] *)

Section RetrieveContextValue.

Context `{E : Externals}.

Lemma wfs_is_not_wms (self : ContextServiceRegistry) :
  query_type self = WFS -> String.eqb (query_type self) WMS = false.
Proof. now intros ->. Qed.

Lemma geometry_truthy_Some (o : option (Geometry Shape)) (g : Geometry Shape) :
  geometry_truthy o = Some g -> o = Some g /\ geos_bool (geom_shape g) = true.
Proof.
  destruct o as [g'|]; simpl; [|discriminate].
  destruct (geos_bool (geom_shape g')) eqn:Hb; [|discriminate].
  intros [= <-]. auto.
Qed.

Lemma default_srid_shape (self : ContextServiceRegistry) (g : Geometry Shape) :
  geom_shape (default_srid self g) = geom_shape g.
Proof.
  unfold default_srid. destruct (geom_srid g) as [[| |]|]; reflexivity.
Qed.

Lemma default_srid_missing (self : ContextServiceRegistry) (g : Geometry Shape) :
  geom_srid g = None \/ geom_srid g = Some 0%Z ->
  geom_srid (default_srid self g) = srid self.
Proof.
  unfold default_srid. intros [-> | ->]; reflexivity.
Qed.

Lemma default_srid_present (self : ContextServiceRegistry) (g : Geometry Shape)
    (s : Z) :
  geom_srid g = Some s -> s <> 0%Z -> default_srid self g = g.
Proof.
  unfold default_srid. intros -> Hs. destruct s; [contradiction| |]; reflexivity.
Qed.

(** C6 (as amended).  A WFS resolution whose response carries no (truthy) geometry
    returns [None]: one request was sent, no value is extracted or
    returned and the cache table is as it was, so no region is made up.
    When the response carries a geometry, the value parses and the
    registry has a time to live, the saved row is returned with that
    value and that shape; its SRID is the registry's when the parsed
    geometry had none, and stays the parsed one otherwise. *)
Theorem retrieve_context_value_wfs_geometry (self : ContextServiceRegistry)
    (x y : Coord) (srid_ : Z) (w : World) (u content : string) :
  query_type self = WFS ->
  build_query_url self x y srid_ = Some u ->
  requests_get (List.length (network_log w)) u = Ok content ->
  (geometry_truthy (parse_geometry self content) = None ->
   retrieve_context_value self x y srid_ w = (Ok None, logged (HttpGet u) w)
   /\ caches (logged (HttpGet u) w) = caches w) /\
  (forall (g : Geometry Shape) (v : option string) (ttl : Z),
      geometry_truthy (parse_geometry self content) = Some g ->
      parse_request_value self content = Ok v ->
      time_to_live self = Some ttl ->
      exists (c : ContextCache) (w' : World) (g' : Geometry Shape),
        retrieve_context_value self x y srid_ w = (Ok (Some c), w') /\
        caches w' = (caches w ++ [c])%list /\
        value c = v /\
        geometry c = Some g' /\
        geom_shape g' = geom_shape g /\
        (geom_srid g = None \/ geom_srid g = Some 0%Z ->
         geom_srid g' = srid self) /\
        (forall s : Z, geom_srid g = Some s -> s <> 0%Z -> g' = g)).
Proof.
  intros Hq Hu Hget.
  unfold retrieve_context_value.
  rewrite (wfs_is_not_wms self Hq), Hu.
  unfold http_get, bind, request_number, log_call, lift. rewrite Hget.
  split.
  - intros ->. split; reflexivity.
  - intros g v ttl Hg Hv Httl. rewrite Hg, Hv.
    unfold create_cache, bind, get_utcnow, save_new, ret. rewrite Httl.
    cbn.
    destruct (geometry_truthy_Some _ _ Hg) as [_ Hb].
    eexists _, _, (default_srid self g).
    split; [reflexivity|]. cbn.
    rewrite default_srid_shape, Hb.
    repeat split.
    + apply default_srid_missing.
    + apply default_srid_present.
Qed.

End RetrieveContextValue.

Lemma retrieve_context_value_wfs_geometry_witness :
  query_type Demo.bare = WFS /\
  retrieve_context_value (E := Demo.env) Demo.bare 10%Z 20%Z 4326%Z Demo.fresh
  = (Ok None,
     logged (HttpGet ("http://bare/wfs?SERVICE=WFS&REQUEST=GetFeature"
                      ++ "&VERSION=2.0.0&TYPENAME=layer&OUTPUTFORMAT=GML3"
                      ++ "&SRSNAME=4326&BBOX=9,19,11,21")) Demo.fresh).
Proof.
  split; [reflexivity|].
  apply (retrieve_context_value_wfs_geometry (E := Demo.env) Demo.bare
           10%Z 20%Z 4326%Z Demo.fresh _ Demo.bare_payload);
    reflexivity.
Defined.

(** The response to the registry [bare] holds the value [clay] under the
    tag [type] but no geometry: the resolution returns [None], so no row
    carrying [clay] reaches the caller. *)
Lemma retrieve_context_value_no_geometry_counterexample :
  parse_request_value (E := Demo.env) Demo.bare Demo.bare_payload
  = Ok (Some "clay") /\
  ~ (exists c : ContextCache,
        fst (retrieve_context_value (E := Demo.env) Demo.bare
               10%Z 20%Z 4326%Z Demo.fresh) = Ok (Some c)
        /\ value c = Some "clay").
Proof.
  split; [reflexivity|].
  intros (c & H & _). discriminate H.
Qed.

(** ** [retrieve_context]: the lookup *)

Section Lookup.

Context `{E : Externals}.

Lemma objects_get_Ok (k : string) (w w' : World) (r : ContextServiceRegistry) :
  objects_get k w = (Ok r, w') ->
  w' = w /\ In r (registries w) /\ key r = k /\
  (forall r', In r' (registries w) -> key r' = k -> r' = r).
Proof.
  unfold objects_get.
  destruct (filter (fun r0 => String.eqb (key r0) k) (registries w))
    as [|r0 [|r1 l]] eqn:Hf; intros [= <- <-].
  assert (Hin : In r0 (filter (fun r0 => String.eqb (key r0) k) (registries w)))
    by (rewrite Hf; now left).
  apply filter_In in Hin as [Hin Hk]. apply String.eqb_eq in Hk.
  repeat split; auto.
  intros r' Hr' Hk'.
  assert (Hin' : In r' (filter (fun r0 => String.eqb (key r0) k) (registries w))).
  { apply filter_In. split; [exact Hr'|]. now apply String.eqb_eq. }
  rewrite Hf in Hin'. destruct Hin' as [->|[]]. reflexivity.
Qed.

Variable p : Point Coord.

(** The scan passes over rows whose geometry does not contain the point. *)
Lemma scan_caches_skip (pre l : list ContextCache) (w : World) :
  Forall (fun c => exists g, geometry c = Some g /\ geos_contains g p = false) pre ->
  scan_caches p (pre ++ l) w = scan_caches p l w.
Proof.
  induction 1 as [|c pre (g & Hg & Hc) _ IH]; simpl; [reflexivity|].
  now rewrite Hg, Hc.
Qed.

Lemma scan_caches_miss (l : list ContextCache) (w : World) :
  Forall (fun c => exists g, geometry c = Some g /\ geos_contains g p = false) l ->
  scan_caches p l w = (Ok None, w).
Proof.
  intros H. rewrite <- (app_nil_r l). now rewrite scan_caches_skip.
Qed.

Lemma scan_caches_hit (pre post : list ContextCache) (e : ContextCache)
    (w : World) :
  Forall (fun c => exists g, geometry c = Some g /\ geos_contains g p = false) pre ->
  covers e p = true ->
  (utcnow w < expired_time e)%Z ->
  scan_caches p (pre ++ e :: post) w = (Ok (Some e), w).
Proof.
  intros Hpre Hc Hlive. rewrite scan_caches_skip by exact Hpre.
  unfold covers in Hc. simpl.
  destruct (geometry e) as [g|]; [|discriminate]. rewrite Hc.
  unfold bind, get_utcnow, ret.
  apply Z.ltb_lt in Hlive. now rewrite Hlive.
Qed.

Lemma scan_caches_expired (pre post : list ContextCache) (e : ContextCache)
    (w : World) :
  Forall (fun c => exists g, geometry c = Some g /\ geos_contains g p = false) pre ->
  covers e p = true ->
  (expired_time e <= utcnow w)%Z ->
  scan_caches p (pre ++ e :: post) w = (Ok None, without e w).
Proof.
  intros Hpre Hc Hdead. rewrite scan_caches_skip by exact Hpre.
  unfold covers in Hc. simpl.
  destruct (geometry e) as [g|]; [|discriminate]. rewrite Hc.
  unfold bind, get_utcnow, ret.
  apply Z.ltb_ge in Hdead. now rewrite Hdead.
Qed.

(** The scan raises at the first row that has no geometry. *)
Lemma scan_caches_no_geometry (pre post : list ContextCache)
    (e : ContextCache) (w : World) :
  Forall (fun c => exists g, geometry c = Some g /\ geos_contains g p = false) pre ->
  geometry e = None ->
  scan_caches p (pre ++ e :: post) w = (Raise AttributeError, w).
Proof.
  intros Hpre He. rewrite scan_caches_skip by exact Hpre.
  simpl. now rewrite He.
Qed.

(** In a state of the engine, a registry that has one row with a
    geometry has a geometry on all its rows. *)
Lemma caches_of_geometry (w : World) (r : ContextServiceRegistry)
    (e : ContextCache) :
  world_inv w -> In r (registries w) ->
  In e (caches_of w r) -> geometry e <> None ->
  Forall (fun c => geometry c <> None) (caches_of w r).
Proof.
  intros [_ Hrows] Hr He Hg.
  assert (Hwms : query_type r <> WMS).
  { unfold caches_of in He. apply filter_In in He as [He Hk].
    apply String.eqb_eq in Hk.
    rewrite Forall_forall in Hrows. destruct (Hrows e He) as [_ Hrow].
    intros Hq. apply Hg. apply (Hrow r Hr); auto. }
  apply Forall_forall. intros c Hc.
  unfold caches_of in Hc. apply filter_In in Hc as [Hc Hk].
  apply String.eqb_eq in Hk.
  rewrite Forall_forall in Hrows. destruct (Hrows c Hc) as [_ Hrow].
  intros Hnone. apply Hwms. apply (Hrow r Hr); auto.
Qed.

Lemma covers_geometry (e : ContextCache) :
  covers e p = true -> geometry e <> None.
Proof.
  unfold covers. destruct (geometry e); [discriminate | discriminate].
Qed.

(** The rows scanned before the covering one: they have a geometry, and
    it does not contain the point. *)
Lemma scanned_before (w : World) (r : ContextServiceRegistry)
    (pre post : list ContextCache) (e : ContextCache) :
  world_inv w -> In r (registries w) ->
  caches_of w r = (pre ++ e :: post)%list ->
  covers e p = true ->
  Forall (fun c => covers c p = false) pre ->
  Forall (fun c => exists g, geometry c = Some g /\ geos_contains g p = false) pre.
Proof.
  intros Hinv Hr Hl He Hpre.
  assert (Hall : Forall (fun c => geometry c <> None) (caches_of w r)).
  { apply (caches_of_geometry w r e Hinv Hr).
    - rewrite Hl. apply in_or_app. right. now left.
    - now apply covers_geometry. }
  rewrite Hl in Hall. apply Forall_app in Hall as [Hall _].
  rewrite Forall_forall in *. intros c Hc.
  specialize (Hall c Hc). specialize (Hpre c Hc). unfold covers in Hpre.
  destruct (geometry c) as [g|]; [|contradiction].
  exists g. auto.
Qed.

End Lookup.

(** ** What a resolution does to the tables *)

Section Effects.

Context `{E : Externals}.

(** [retrieve_context_value] leaves the registries, the groups and the
    clock alone; it either leaves the cache table as it was and returns
    no row, or appends one new row, with the next primary key, for the
    registry it resolved, and returns it.  The new row lacks a geometry
    exactly for a WMS registry. *)
Lemma retrieve_context_value_effect (self : ContextServiceRegistry)
    (x y : Coord) (srid_ : Z) (w w' : World)
    (res : result (option ContextCache)) :
  retrieve_context_value self x y srid_ w = (res, w') ->
  registries w' = registries w /\
  group_services w' = group_services w /\
  utcnow w' = utcnow w /\
  ((caches w' = caches w /\ next_pk w' = next_pk w /\
    forall c, res <> Ok (Some c))
   \/
   (exists c : ContextCache,
       res = Ok (Some c) /\
       caches w' = (caches w ++ [c])%list /\
       next_pk w' = S (next_pk w) /\
       cache_pk c = next_pk w /\
       service_registry c = key self /\
       (geometry c = None <-> query_type self = WMS))).
Proof.
  unfold retrieve_context_value.
  destruct (String.eqb_spec (query_type self) WMS) as [Hq | Hq].
  - unfold wms_call, bind, request_number, log_call, lift.
    destruct (wms_getcapabilities _ _ _) as [[] | e];
      [|intros [= <- <-]; cbn; repeat split; left; repeat split; discriminate].
    destruct (wms_getfeatureinfo _ _) as [[content u] | e];
      [|intros [= <- <-]; cbn; repeat split; left; repeat split; discriminate].
    cbn [fst snd].
    destruct (parse_request_value self content) as [v | e];
      [|intros [= <- <-]; cbn; repeat split; left; repeat split; discriminate].
    unfold create_cache, bind, get_utcnow, save_new, ret, raise.
    destruct (time_to_live self) as [ttl|];
      [|intros [= <- <-]; cbn; repeat split; left; repeat split; discriminate].
    intros [= <- <-]; cbn. repeat split. right.
    eexists. split; [reflexivity|]. cbn. repeat split; auto.
  - unfold http_get.
    destruct (build_query_url self x y srid_) as [u|];
      [|unfold raise, bind; intros [= <- <-]; repeat split; left;
        repeat split; discriminate].
    unfold bind, request_number, log_call, lift.
    destruct (requests_get _ u) as [content | e];
      [|intros [= <- <-]; cbn; repeat split; left; repeat split; discriminate].
    destruct (geometry_truthy (parse_geometry self content)) as [g|] eqn:Hg;
      [|unfold ret; intros [= <- <-]; cbn; repeat split; left;
        repeat split; discriminate].
    destruct (parse_request_value self content) as [v | e];
      [|intros [= <- <-]; cbn; repeat split; left; repeat split; discriminate].
    unfold create_cache, bind, get_utcnow, save_new, ret, raise.
    destruct (time_to_live self) as [ttl|];
      [|intros [= <- <-]; cbn; repeat split; left; repeat split; discriminate].
    intros [= <- <-]; cbn. repeat split. right.
    eexists. split; [reflexivity|]. cbn.
    destruct (geometry_truthy_Some _ _ Hg) as [_ Hb].
    rewrite default_srid_shape, Hb.
    repeat split; auto; [discriminate | contradiction].
Qed.

Lemma without_caches (e : ContextCache) (w : World) :
  caches (without e w)
  = filter (fun c => negb (Nat.eqb (cache_pk c) (cache_pk e))) (caches w).
Proof. reflexivity. Qed.

(** With unique primary keys, deleting a row removes that row and no
    other. *)
Lemma without_exactly (e : ContextCache) (w : World) :
  world_inv w -> In e (caches w) ->
  forall c, In c (caches (without e w)) <-> (In c (caches w) /\ c <> e).
Proof.
  intros [Hnd _] He c. rewrite without_caches, filter_In.
  rewrite negb_true_iff, Nat.eqb_neq.
  split; intros [Hc Hne]; split; auto.
  - intros ->. now apply Hne.
  - intros Hpk. apply Hne. clear Hne.
    induction (caches w) as [|a l IH]; [contradiction|].
    simpl in Hnd. inversion Hnd as [|? ? Hnotin Hnd']; subst.
    destruct Hc as [-> | Hc], He as [<- | He]; auto.
    + exfalso. apply Hnotin. rewrite Hpk. now apply in_map.
    + exfalso. apply Hnotin. rewrite <- Hpk. now apply in_map.
Qed.

Lemma NoDup_filter_map {A B : Type} (f : A -> B) (q : A -> bool) (l : list A) :
  NoDup (map f l) -> NoDup (map f (filter q l)).
Proof.
  induction l as [|a l IH]; simpl; [auto|].
  intros Hnd. inversion Hnd as [|? ? Hnotin Hnd']; subst.
  destruct (q a); simpl; [|auto].
  constructor; [|auto].
  intros Hin. apply Hnotin. apply in_map_iff in Hin as (b & Hb & Hin).
  apply filter_In in Hin as [Hin _]. rewrite <- Hb. now apply in_map.
Qed.

Lemma without_inv (e : ContextCache) (w : World) :
  world_inv w -> world_inv (without e w).
Proof.
  intros [Hnd Hrows]. split.
  - rewrite without_caches. now apply NoDup_filter_map.
  - rewrite without_caches. apply Forall_forall. intros c Hc.
    apply filter_In in Hc as [Hc _].
    rewrite Forall_forall in Hrows. exact (Hrows c Hc).
Qed.

Lemma scan_caches_effect (p : Point Coord) (l : list ContextCache)
    (w w' : World) (res : result (option ContextCache)) :
  scan_caches p l w = (res, w') ->
  w' = w \/ exists e, In e l /\ w' = without e w /\ res = Ok None.
Proof.
  revert w w' res. induction l as [|c l IH]; simpl; intros w w' res.
  - intros [= <- <-]. now left.
  - destruct (geometry c) as [g|]; [|intros [= <- <-]; now left].
    destruct (geos_contains g p).
    + unfold bind, get_utcnow, ret.
      destruct (utcnow w <? expired_time c)%Z; intros [= <- <-].
      * now left.
      * right. exists c. auto.
    + intros H. apply IH in H as [-> | (e & He & -> & ->)]; [now left|].
      right. exists e. auto.
Qed.

(** The resolution of one key keeps the engine in one of its states. *)
Theorem retrieve_context_inv (x y : Coord) (k : string) (srid_ : Z)
    (w w' : World) (res : result (option ContextCache)) :
  world_inv w ->
  retrieve_context x y k srid_ w = (res, w') ->
  world_inv w' /\ registries w' = registries w
  /\ group_services w' = group_services w.
Proof.
  intros Hinv. unfold retrieve_context, bind.
  destruct (objects_get k w) as [[r | e] w0] eqn:Hget;
    [|unfold objects_get in Hget;
      destruct (filter _ (registries w)) as [|? [|? ?]];
      inversion Hget; subst; intros [= <- <-]; auto].
  apply objects_get_Ok in Hget as (-> & Hr & Hk & Huniq).
  unfold objects_filter.
  destruct (scan_caches _ _ w) as [[hit | e] w1] eqn:Hscan.
  - apply scan_caches_effect in Hscan.
    assert (Hinv1 : world_inv w1 /\ registries w1 = registries w
                    /\ group_services w1 = group_services w).
    { destruct Hscan as [-> | (e & _ & -> & _)]; [auto|].
      split; [now apply without_inv | auto]. }
    destruct Hinv1 as ([Hnd Hrows] & Hregs & Hgs).
    destruct hit as [c|]; [unfold ret; intros [= <- <-]; repeat split; auto|].
    intros Hval. apply retrieve_context_value_effect in Hval
      as (Hregs' & Hgs' & _ & [(Hc & Hpk & _) | (c & _ & Hc & Hpk & Hcpk & Hsr & Hgeo)]).
    + split; [split | split; congruence].
      * now rewrite Hc.
      * rewrite Hc. apply Forall_forall. intros c Hin.
        rewrite Forall_forall in Hrows. destruct (Hrows c Hin) as [Hlt Hrow].
        split; [now rewrite Hpk|]. now rewrite Hregs'.
    + split; [split | split; congruence].
      * rewrite Hc, map_app. simpl.
        apply NoDup_app; [exact Hnd | repeat constructor; intros [] |].
        intros a Ha [<- | []].
        apply in_map_iff in Ha as (c0 & Hc0 & Hin).
        rewrite Forall_forall in Hrows. destruct (Hrows c0 Hin) as [Hlt _].
        rewrite Hcpk in Hc0. rewrite Hc0 in Hlt. lia.
      * rewrite Hc. apply Forall_app. split.
        -- apply Forall_forall. intros c0 Hin.
           rewrite Forall_forall in Hrows. destruct (Hrows c0 Hin) as [Hlt Hrow].
           split; [rewrite Hpk; lia|]. now rewrite Hregs'.
        -- constructor; [|constructor]. split; [rewrite Hpk, Hcpk; lia|].
           intros r' Hr' Hk'. rewrite Hregs', Hregs in Hr'.
           assert (r' = r) as -> by (apply Huniq; congruence).
           exact Hgeo.
  - apply scan_caches_effect in Hscan as [-> | (e0 & _ & _ & [=])].
    intros [= <- <-]. auto.
Qed.

(** An empty cache is a state of the engine, whatever the registries. *)
Lemma empty_cache_inv (w : World) : caches w = [] -> world_inv w.
Proof.
  intros H. unfold world_inv. rewrite H. split; constructor.
Qed.

(** The passing of time keeps the engine in one of its states. *)
Lemma at_time_inv (t : Z) (w : World) : world_inv w -> world_inv (at_time t w).
Proof. intros H. exact H. Qed.

(** So does the resolution of a group. *)
Lemma resolve_each_inv (x y : Coord) (srid_ : Z)
    (l : list ContextGroupServices) (acc : list (option ContextCache))
    (w w' : World) (res : result (list (option ContextCache))) :
  world_inv w ->
  resolve_each x y srid_ l acc w = (res, w') ->
  world_inv w'.
Proof.
  revert acc w. induction l as [|s l IH]; intros acc w Hinv; simpl.
  - intros [= <- <-]. exact Hinv.
  - unfold bind.
    destruct (retrieve_context x y (context_service_registry s) srid_ w)
      as [[c | e] w0] eqn:Hs;
      apply (retrieve_context_inv _ _ _ _ _ _ _ Hinv) in Hs as (Hinv0 & _).
    + apply IH. exact Hinv0.
    + intros [= <- <-]. exact Hinv0.
Qed.

End Effects.

(** ** [retrieve_context]: hits, expiry and rows without geometry *)

Section RetrieveContext.

Context `{E : Externals}.

Lemma retrieve_context_unfold (x y : Coord) (k : string) (srid_ : Z)
    (w : World) (r : ContextServiceRegistry) :
  objects_get k w = (Ok r, w) ->
  retrieve_context x y k srid_ w
  = match scan_caches (query_point x y srid_) (caches_of w r) w with
    | (Ok (Some cache), w') => (Ok (Some cache), w')
    | (Ok None, w') => retrieve_context_value r x y srid_ w'
    | (Raise e, w') => (Raise e, w')
    end.
Proof.
  intros Hget. unfold retrieve_context, bind. rewrite Hget.
  unfold objects_filter, caches_of.
  destruct (scan_caches _ _ w) as [[[c|]|e] w']; reflexivity.
Qed.

(** C1 (as amended).  In a state of the engine, when the point lies in
    the geometry of a stored row of the requested registry that has not
    expired, and no row scanned before it covers the point, the lookup
    returns that row and leaves the world as it was: nothing is sent
    and nothing is fetched. *)
Theorem retrieve_context_cache_hit (x y : Coord) (k : string) (srid_ : Z)
    (w : World) (r : ContextServiceRegistry)
    (pre post : list ContextCache) (e : ContextCache) :
  world_inv w ->
  objects_get k w = (Ok r, w) ->
  caches_of w r = (pre ++ e :: post)%list ->
  covers e (query_point x y srid_) = true ->
  (utcnow w < expired_time e)%Z ->
  Forall (fun c => covers c (query_point x y srid_) = false) pre ->
  retrieve_context x y k srid_ w = (Ok (Some e), w).
Proof.
  intros Hinv Hget Hl Hc Hlive Hpre.
  rewrite (retrieve_context_unfold x y k srid_ w r Hget), Hl.
  apply objects_get_Ok in Hget as (_ & Hr & _).
  rewrite scan_caches_hit; auto.
  eapply scanned_before; eauto.
Qed.

(** In a state of the engine, when the first row of the requested
    registry that covers the point has expired, the lookup deletes that
    row and no other, looks at no row after it, and continues with
    [retrieve_context_value] on the world without the row.  The expired
    row is not what is returned, and it is gone afterwards. *)
Lemma retrieve_context_delete_then_fetch (x y : Coord) (k : string) (srid_ : Z)
    (w : World) (r : ContextServiceRegistry)
    (pre post : list ContextCache) (e : ContextCache) :
  world_inv w ->
  objects_get k w = (Ok r, w) ->
  caches_of w r = (pre ++ e :: post)%list ->
  covers e (query_point x y srid_) = true ->
  (expired_time e <= utcnow w)%Z ->
  Forall (fun c => covers c (query_point x y srid_) = false) pre ->
  retrieve_context x y k srid_ w
  = retrieve_context_value r x y srid_ (without e w)
  /\ (forall c, In c (caches (without e w)) <-> (In c (caches w) /\ c <> e))
  /\ fst (retrieve_context x y k srid_ w) <> Ok (Some e)
  /\ ~ In e (caches (snd (retrieve_context x y k srid_ w))).
Proof.
  intros Hinv Hget Hl Hc Hdead Hpre.
  assert (Hin : In e (caches w)).
  { assert (H : In e (caches_of w r))
      by (rewrite Hl; apply in_or_app; right; now left).
    unfold caches_of in H. now apply filter_In in H. }
  assert (Heq : retrieve_context x y k srid_ w
                = retrieve_context_value r x y srid_ (without e w)).
  { rewrite (retrieve_context_unfold x y k srid_ w r Hget), Hl.
    apply objects_get_Ok in Hget as (_ & Hr & _).
    rewrite scan_caches_expired; auto.
    eapply scanned_before; eauto. }
  pose proof (without_exactly e w Hinv Hin) as Hex.
  assert (Hpk : cache_pk e < next_pk w).
  { destruct Hinv as [_ Hrows]. rewrite Forall_forall in Hrows.
    now destruct (Hrows e Hin). }
  split; [exact Heq|]. split; [exact Hex|].
  rewrite Heq.
  destruct (retrieve_context_value r x y srid_ (without e w))
    as [res w'] eqn:Hval.
  apply retrieve_context_value_effect in Hval
    as (_ & _ & _ & [(Hcs & _ & Hres) | (c & -> & Hcs & _ & Hcpk & _)]);
    simpl.
  - split; [apply Hres|]. rewrite Hcs. intros H. apply Hex in H. now destruct H.
  - assert (Hne : c <> e).
    { intros ->. change (next_pk (without e w)) with (next_pk w) in Hcpk. lia. }
    split; [congruence|].
    rewrite Hcs. intros H. apply in_app_or in H as [H | [H | []]].
    + apply Hex in H. now destruct H.
    + now apply Hne.
Qed.

(** In a state of the engine, when no row of a registry that is not a
    WMS one covers the point, the lookup is a miss and the outcome is
    that of [retrieve_context_value] on the same world. *)
Lemma retrieve_context_miss (x y : Coord) (k : string) (srid_ : Z)
    (w : World) (r : ContextServiceRegistry) :
  world_inv w ->
  objects_get k w = (Ok r, w) ->
  query_type r <> WMS ->
  Forall (fun c => covers c (query_point x y srid_) = false) (caches_of w r) ->
  retrieve_context x y k srid_ w = retrieve_context_value r x y srid_ w.
Proof.
  intros [_ Hrows] Hget Hq Hmiss.
  rewrite (retrieve_context_unfold x y k srid_ w r Hget).
  apply objects_get_Ok in Hget as (_ & Hr & _).
  rewrite scan_caches_miss; [reflexivity|].
  rewrite Forall_forall in *. intros c Hc. specialize (Hmiss c Hc).
  unfold caches_of in Hc. apply filter_In in Hc as [Hc Hk].
  apply String.eqb_eq in Hk. destruct (Hrows c Hc) as [_ Hrow].
  unfold covers in Hmiss.
  destruct (geometry c) as [g|] eqn:Hg.
  - exists g. auto.
  - exfalso. apply Hq. now apply (Hrow r Hr).
Qed.

(** A lookup that meets a row without geometry raises
    [AttributeError], whatever the point: [cache.geometry] is [None]. *)
Lemma retrieve_context_no_geometry (x y : Coord) (k : string) (srid_ : Z)
    (w : World) (r : ContextServiceRegistry)
    (post : list ContextCache) (e : ContextCache) :
  objects_get k w = (Ok r, w) ->
  caches_of w r = e :: post ->
  geometry e = None ->
  retrieve_context x y k srid_ w = (Raise AttributeError, w).
Proof.
  intros Hget Hl He.
  rewrite (retrieve_context_unfold x y k srid_ w r Hget), Hl.
  simpl. now rewrite He.
Qed.

(** *** Group resolution *)

Lemma resolve_each_app (x y : Coord) (srid_ : Z)
    (l1 l2 : list ContextGroupServices)
    (acc : list (option ContextCache)) (w : World) :
  resolve_each x y srid_ (l1 ++ l2) acc w
  = match resolve_each x y srid_ l1 acc w with
    | (Ok vs, w1) => resolve_each x y srid_ l2 vs w1
    | (Raise e, w1) => (Raise e, w1)
    end.
Proof.
  revert acc w. induction l1 as [|s l1 IH]; intros acc w; simpl.
  - reflexivity.
  - unfold bind.
    destruct (retrieve_context x y (context_service_registry s) srid_ w)
      as [[c | e] w0]; [apply IH | reflexivity].
Qed.

Lemma resolve_each_length (x y : Coord) (srid_ : Z)
    (l : list ContextGroupServices)
    (acc vs : list (option ContextCache)) (w w' : World) :
  resolve_each x y srid_ l acc w = (Ok vs, w') ->
  length vs = length acc + length l.
Proof.
  revert acc w. induction l as [|s l IH]; intros acc w; simpl.
  - intros [= <- _]. lia.
  - unfold bind.
    destruct (retrieve_context x y (context_service_registry s) srid_ w)
      as [[c | e] w0]; [|discriminate].
    intros H. apply IH in H. rewrite H, length_app. simpl. lia.
Qed.

(** C3 (as amended).  Group resolution resolves the keys of the group
    in their order and appends what each resolution returns.  Once the
    keys before [s] have given the results [vs]: there is one result
    per key resolved; if resolving [s] raises, group resolution raises
    the same exception in the same world, so no key after [s] is
    resolved and no result list comes out; if it returns, its result
    comes next, and after the last key the list is the outcome. *)
Theorem populate_service_registry_values_in_order (x y : Coord)
    (g : string) (srid_ : Z) (w w1 : World)
    (pre post : list ContextGroupServices) (s : ContextGroupServices)
    (vs : list (option ContextCache)) :
  group_services_of g w = (pre ++ s :: post)%list ->
  resolve_each x y srid_ pre [] w = (Ok vs, w1) ->
  length vs = length pre /\
  (forall (e : exn) (w2 : World),
      retrieve_context x y (context_service_registry s) srid_ w1 = (Raise e, w2) ->
      populate_service_registry_values x y g srid_ w = (Raise e, w2)) /\
  (forall (c : option ContextCache) (w2 : World),
      retrieve_context x y (context_service_registry s) srid_ w1 = (Ok c, w2) ->
      resolve_each x y srid_ (pre ++ [s]) [] w = (Ok (vs ++ [c])%list, w2) /\
      (post = [] ->
       populate_service_registry_values x y g srid_ w = (Ok (vs ++ [c])%list, w2))).
Proof.
  intros Hg Hpre.
  split; [apply resolve_each_length in Hpre; simpl in Hpre; exact Hpre|].
  unfold populate_service_registry_values. rewrite Hg.
  split.
  - intros e w2 Hs. rewrite resolve_each_app, Hpre. simpl.
    unfold bind. now rewrite Hs.
  - intros c w2 Hs. split.
    + rewrite resolve_each_app, Hpre. simpl. unfold bind. now rewrite Hs.
    + intros ->. rewrite resolve_each_app, Hpre. simpl.
      unfold bind. now rewrite Hs.
Qed.

End RetrieveContext.

(** ** The engine on the concrete deployment *)

Ltac demo_row :=
  split;
  [ simpl; lia
  | let r := fresh "r" in
    let Hr := fresh "Hr" in
    let Hk := fresh "Hk" in
    intros r Hr Hk; simpl in Hr;
    repeat (destruct Hr as [<- | Hr];
            [ cbv in Hk; try discriminate Hk;
              split; (let H := fresh "H" in intros H; cbv in H; discriminate H)
            | ]);
    contradiction ].

Ltac demo_inv :=
  split;
  [ simpl; repeat constructor; simpl; lia
  | simpl; repeat (constructor; [demo_row|]); constructor ].

Lemma fresh_inv : world_inv Demo.fresh.
Proof. demo_inv. Qed.

Lemma covered_inv : world_inv Demo.covered.
Proof. demo_inv. Qed.

(** [overlapping] is what two resolutions from the empty cache leave. *)
Lemma overlapping_inv :
  caches Demo.overlapping = [Demo.first_row; Demo.second_row] /\
  world_inv Demo.overlapping.
Proof.
  split; [vm_compute; reflexivity|].
  apply at_time_inv.
  destruct (retrieve_context (E := Demo.env) 150%Z 150%Z "soil" 4326%Z
              (at_time 600000 Demo.after_first)) as [res2 w2] eqn:H2.
  assert (Hw2 : Demo.after_second = w2)
    by (unfold Demo.after_second; now rewrite H2).
  rewrite Hw2.
  refine (proj1 (retrieve_context_inv _ _ _ _ _ _ _ _ H2)).
  apply at_time_inv.
  destruct (retrieve_context (E := Demo.env) 10%Z 20%Z "soil" 4326%Z
              Demo.fresh) as [res1 w1] eqn:H1.
  assert (Hw1 : Demo.after_first = w1)
    by (unfold Demo.after_first; now rewrite H1).
  rewrite Hw1.
  exact (proj1 (retrieve_context_inv _ _ _ _ _ _ _ fresh_inv H1)).
Qed.

Lemma expired_only_inv : world_inv Demo.expired_only.
Proof. demo_inv. Qed.

Lemma retrieve_context_cache_hit_witness :
  world_inv Demo.covered /\
  caches_of Demo.covered Demo.soil = [Demo.far_row; Demo.live_row] /\
  retrieve_context (E := Demo.env) 10%Z 20%Z "soil" 4326%Z Demo.covered
  = (Ok (Some Demo.live_row), Demo.covered).
Proof.
  split; [exact covered_inv|]. split; [reflexivity|].
  apply (retrieve_context_cache_hit (E := Demo.env) 10%Z 20%Z "soil" 4326%Z
           Demo.covered Demo.soil [Demo.far_row] [] Demo.live_row).
  - exact covered_inv.
  - reflexivity.
  - reflexivity.
  - reflexivity.
  - vm_compute. reflexivity.
  - repeat constructor.
Defined.

(** After two resolutions from the empty cache the registry [soil] has
    two rows that cover the point (10, 20); the first one scanned has
    expired, the second one has not.  The lookup does not return the live
    row: it deletes the expired one and fetches, so a request is sent. *)
Lemma retrieve_context_overlap_counterexample :
  ~ (forall (x y : Z) (k : string) (srid_ : Z) (w : World (H := Demo.env))
            (r : ContextServiceRegistry) (e : ContextCache),
        world_inv w ->
        objects_get k w = (Ok r, w) ->
        In e (caches_of w r) ->
        covers e (query_point (E := Demo.env) x y srid_) = true ->
        (utcnow w < expired_time e)%Z ->
        fst (retrieve_context (E := Demo.env) x y k srid_ w) = Ok (Some e)
        /\ network_log (snd (retrieve_context (E := Demo.env) x y k srid_ w))
           = network_log w).
Proof.
  intros H.
  destruct (H 10%Z 20%Z "soil" 4326%Z Demo.overlapping Demo.soil Demo.second_row)
    as [_ Hlog].
  - exact (proj2 overlapping_inv).
  - reflexivity.
  - right. left. reflexivity.
  - reflexivity.
  - vm_compute. reflexivity.
  - vm_compute in Hlog. discriminate Hlog.
Qed.

(** C4.  The WMS registry [rain], resolved on an empty cache, stores and
    returns a row without geometry; the state is one the engine can be
    in.  The next lookup for the same registry does not complete: the
    scan reaches that row and raises [AttributeError]. *)
Theorem retrieve_context_wms_second_lookup :
  exists (c : ContextCache) (w1 : World (H := Demo.env)),
    retrieve_context (E := Demo.env) 10%Z 20%Z "rain" 4326%Z Demo.fresh
    = (Ok (Some c), w1)
    /\ geometry c = None
    /\ caches w1 = [c]
    /\ world_inv w1
    /\ retrieve_context (E := Demo.env) 10%Z 20%Z "rain" 4326%Z w1
       = (Raise AttributeError, w1).
Proof.
  destruct (retrieve_context (E := Demo.env) 10%Z 20%Z "rain" 4326%Z Demo.fresh)
    as [res w1] eqn:Hrun.
  pose proof (retrieve_context_inv (E := Demo.env) _ _ _ _ _ _ _ fresh_inv Hrun)
    as (Hinv & _ & _).
  vm_compute in Hrun. injection Hrun as <- <-.
  eexists _, _. split; [reflexivity|].
  split; [reflexivity|]. split; [reflexivity|]. split; [exact Hinv|].
  eapply (retrieve_context_no_geometry (E := Demo.env)); reflexivity.
Qed.

Lemma populate_service_registry_values_in_order_witness :
  exists (vs : list (option ContextCache)) (w' : World (H := Demo.env)),
    populate_service_registry_values (E := Demo.env) 10%Z 20%Z "g" 4326%Z
      Demo.paired = (Ok vs, w')
    /\ map (option_map cache_name) vs = [Some "soil"; Some "rain"].
Proof.
  pose (s1 := {| context_group := "g"; context_service_registry := "soil";
                 order := 1 |}).
  pose (s2 := {| context_group := "g"; context_service_registry := "rain";
                 order := 2 |}).
  pose (R1 := resolve_each (E := Demo.env) 10%Z 20%Z 4326%Z [s1] [] Demo.paired).
  pose (vs1 := match fst R1 with Ok v => v | Raise _ => [] end).
  pose (R2 := retrieve_context (E := Demo.env) 10%Z 20%Z "rain" 4326%Z (snd R1)).
  pose (c2 := match fst R2 with Ok c => c | Raise _ => None end).
  destruct (populate_service_registry_values_in_order (E := Demo.env)
              10%Z 20%Z "g" 4326%Z Demo.paired (snd R1) [s1] [] s2 vs1)
    as (_ & _ & Hok).
  - reflexivity.
  - vm_compute. reflexivity.
  - destruct (Hok c2 (snd R2)) as [_ Hall].
    + vm_compute. reflexivity.
    + exists (vs1 ++ [c2])%list, (snd R2). split; [now apply Hall|].
      vm_compute. reflexivity.
Defined.

(** The group [g] lists three registries; the second one cannot be
    reached.  Group resolution gives no result list at all: it raises
    the error of the second resolution, and only two requests were sent,
    so the third registry was not resolved. *)
Lemma populate_service_registry_values_counterexample :
  List.length (group_services_of (E := Demo.env) "g" Demo.grouped) = 3 /\
  fst (populate_service_registry_values (E := Demo.env) 10%Z 20%Z "g" 4326%Z
         Demo.grouped) = Raise (NetworkError "connection refused") /\
  List.length
    (network_log
       (snd (populate_service_registry_values (E := Demo.env) 10%Z 20%Z "g"
               4326%Z Demo.grouped))) = 2 /\
  ~ (exists (vs : list (option ContextCache)) (w' : World (H := Demo.env)),
        populate_service_registry_values (E := Demo.env) 10%Z 20%Z "g" 4326%Z
          Demo.grouped = (Ok vs, w')
        /\ List.length vs = 3).
Proof.
  split; [reflexivity|].
  split; [vm_compute; reflexivity|].
  split; [vm_compute; reflexivity|].
  intros (vs & w' & H & _). vm_compute in H. discriminate H.
Qed.

(* ===================================================================== *)
(** * Further properties of the engine *)
(* ===================================================================== *)

(** ** How a lookup can go *)

Section Cases.

Context `{E : Externals}.

Lemma objects_get_world (k : string) (w w' : World)
    (res : result ContextServiceRegistry) :
  objects_get k w = (res, w') -> w' = w.
Proof.
  unfold objects_get.
  destruct (filter _ (registries w)) as [|r0 [|r1 l]]; now intros [= _ <-].
Qed.

(** [objects.get] reads the registries only. *)
Lemma objects_get_stable (k : string) (w w' : World)
    (r : ContextServiceRegistry) :
  registries w' = registries w ->
  objects_get k w = (Ok r, w) -> objects_get k w' = (Ok r, w').
Proof.
  unfold objects_get. intros ->.
  destruct (filter _ (registries w)) as [|r0 [|r1 l]]; intros [= <-];
    reflexivity.
Qed.

(** What the scan of the rows can do: return a live row that covers the
    point, raise on a row without geometry, end without a hit, or delete
    an expired row that covers the point and end. *)
Lemma scan_caches_cases (p : Point Coord) (l : list ContextCache)
    (w w' : World) (res : result (option ContextCache)) :
  scan_caches p l w = (res, w') ->
  (w' = w /\
   (res = Ok None \/ res = Raise AttributeError \/
    exists c, res = Ok (Some c) /\ In c l /\ covers c p = true
              /\ (utcnow w < expired_time c)%Z))
  \/
  (exists e, In e l /\ covers e p = true /\ (expired_time e <= utcnow w)%Z
             /\ w' = without e w /\ res = Ok None).
Proof.
  revert w w' res. induction l as [|c l IH]; simpl; intros w w' res.
  - intros [= <- <-]. left. auto.
  - destruct (geometry c) as [g|] eqn:Hg; [|intros [= <- <-]; left; auto].
    destruct (geos_contains g p) eqn:Hc.
    + unfold bind, get_utcnow, ret.
      destruct (utcnow w <? expired_time c)%Z eqn:Hlt; intros [= <- <-].
      * left. split; [reflexivity|]. right. right. exists c.
        repeat split; auto.
        -- unfold covers. now rewrite Hg.
        -- now apply Z.ltb_lt.
      * right. exists c. repeat split; auto.
        -- unfold covers. now rewrite Hg.
        -- now apply Z.ltb_ge.
    + intros H. apply IH in H
        as [(-> & [-> | [-> | (c0 & -> & Hin & Hcov & Hlive)]])
           | (e & Hin & Hcov & Hdead & -> & ->)].
      * left. auto.
      * left. auto.
      * left. split; [reflexivity|]. right. right. exists c0. auto.
      * right. exists e. auto.
Qed.

(** The ways of [retrieve_context]: the registry is not found; a live
    covering row is returned and nothing changes; a row without geometry
    makes the scan raise; no row covers the point and the value is
    fetched; an expired covering row is deleted and the value is
    fetched. *)
Lemma retrieve_context_cases (x y : Coord) (k : string) (srid_ : Z)
    (w w' : World) (res : result (option ContextCache)) :
  retrieve_context x y k srid_ w = (res, w') ->
  (exists e, objects_get k w = (Raise e, w) /\ res = Raise e /\ w' = w)
  \/
  (exists r, objects_get k w = (Ok r, w) /\
     ((exists c, In c (caches_of w r)
                 /\ covers c (query_point x y srid_) = true
                 /\ (utcnow w < expired_time c)%Z
                 /\ res = Ok (Some c) /\ w' = w)
      \/ (res = Raise AttributeError /\ w' = w)
      \/ retrieve_context_value r x y srid_ w = (res, w')
      \/ (exists e, In e (caches_of w r)
                    /\ covers e (query_point x y srid_) = true
                    /\ (expired_time e <= utcnow w)%Z
                    /\ retrieve_context_value r x y srid_ (without e w)
                       = (res, w')))).
Proof.
  destruct (objects_get k w) as [[r | e] w0] eqn:Hget;
    pose proof (objects_get_world _ _ _ _ Hget) as ->.
  - rewrite (retrieve_context_unfold x y k srid_ w r Hget).
    intros H. right. exists r. split; [reflexivity|].
    destruct (scan_caches _ (caches_of w r) w) as [sres w1] eqn:Hscan.
    apply scan_caches_cases in Hscan
      as [(-> & [-> | [-> | (c & -> & Hin & Hcov & Hlive)]])
         | (e & Hin & Hcov & Hdead & -> & ->)].
    + right. right. left. exact H.
    + injection H as <- <-. right. left. auto.
    + injection H as <- <-. left. exists c. auto.
    + right. right. right. exists e. auto.
  - unfold retrieve_context, bind. rewrite Hget. intros [= <- <-].
    left. exists e. auto.
Qed.

End Cases.

(** ** What a fetch sends, stores and returns *)

Ltac fetch_cases H :=
  unfold retrieve_context_value, wms_call, http_get, create_cache, bind,
    request_number, log_call, lift, get_utcnow, save_new, ret, raise in H;
  let G := fresh "G" in
  match goal with |- ?g => set (G := g) end;
  revert H;
  repeat (cbn [fst snd];
          match goal with
          | |- context [String.eqb (query_type ?s) WMS] =>
              destruct (String.eqb (query_type s) WMS) eqn:?
          | |- context [wms_getcapabilities ?n ?a ?b] =>
              destruct (wms_getcapabilities n a b) as [[] | ?] eqn:?
          | |- context [wms_getfeatureinfo ?n ?r] =>
              destruct (wms_getfeatureinfo n r) as [[? ?] | ?] eqn:?
          | |- context [build_query_url ?s ?a ?b ?c] =>
              destruct (build_query_url s a b c) eqn:?
          | |- context [requests_get ?n ?u] =>
              destruct (requests_get n u) eqn:?
          | |- context [geometry_truthy (parse_geometry ?s ?c)] =>
              destruct (geometry_truthy (parse_geometry s c)) eqn:?
          | |- context [parse_request_value ?s ?c] =>
              destruct (parse_request_value s c) eqn:?
          | |- context [time_to_live ?s] =>
              destruct (time_to_live s) eqn:?
          end);
  intros H; inversion H; subst; clear H;
  match goal with G' := _ |- _ => subst G' end.

Section Fetch.

Context `{E : Externals}.

(** The requests of a fetch for a WMS registry: the capabilities request
    of the [WebMapService] constructor and, when that did not raise, the
    [GetFeatureInfo] request. *)
Lemma retrieve_context_value_log_wms (self : ContextServiceRegistry)
    (x y : Coord) (srid_ : Z) (w w' : World)
    (res : result (option ContextCache)) :
  query_type self = WMS ->
  retrieve_context_value self x y srid_ w = (res, w') ->
  (network_log w'
   = WmsGetCapabilities (url self) (service_version self) :: network_log w
   /\ exists e, res = Raise e)
  \/
  network_log w'
  = WmsGetFeatureInfo (wms_request self x y srid_)
    :: WmsGetCapabilities (url self) (service_version self) :: network_log w.
Proof.
  intros Hq H. apply String.eqb_eq in Hq.
  fetch_cases H; try congruence;
    first [ right; reflexivity | left; split; [reflexivity | eexists; reflexivity] ].
Qed.

(** The requests of a fetch for any other registry: one GET of the query
    URL for a WFS one, none otherwise. *)
Lemma retrieve_context_value_log (self : ContextServiceRegistry)
    (x y : Coord) (srid_ : Z) (w w' : World)
    (res : result (option ContextCache)) :
  query_type self <> WMS ->
  retrieve_context_value self x y srid_ w = (res, w') ->
  network_log w'
  = (match build_query_url self x y srid_ with
     | Some u => [HttpGet u]
     | None => []
     end ++ network_log w)%list.
Proof.
  intros Hq H. apply String.eqb_neq in Hq.
  fetch_cases H; try congruence; reflexivity.
Qed.

(** The row of a fetch that returns one. *)
Lemma retrieve_context_value_row (self : ContextServiceRegistry)
    (x y : Coord) (srid_ : Z) (w w' : World) (c : ContextCache) :
  retrieve_context_value self x y srid_ w = (Ok (Some c), w') ->
  exists ttl : Z,
    time_to_live self = Some ttl /\
    caches w' = (caches w ++ [c])%list /\
    cache_pk c = next_pk w /\
    service_registry c = key self /\
    cache_name c = key self /\
    expired_time c = (utcnow w + ttl)%Z /\
    ((query_type self = WMS /\ geometry c = None /\
      exists content u,
        wms_getfeatureinfo (S (List.length (network_log w)))
          (wms_request self x y srid_) = Ok (content, u)
        /\ parse_request_value self content = Ok (value c)
        /\ source_uri c = str_truthy u)
     \/
     (query_type self <> WMS /\
      exists u content g,
        build_query_url self x y srid_ = Some u
        /\ requests_get (List.length (network_log w)) u = Ok content
        /\ geometry_truthy (parse_geometry self content) = Some g
        /\ geometry c = Some (default_srid self g)
        /\ parse_request_value self content = Ok (value c)
        /\ source_uri c = str_truthy (Some u))).
Proof.
  intros H. fetch_cases H.
  - eexists. split; [reflexivity|]. cbn.
    do 5 (split; [reflexivity|]).
    left. split; [now apply String.eqb_eq|]. split; [reflexivity|].
    eexists _, _. repeat split; first [reflexivity | eassumption].
  - eexists. split; [reflexivity|]. cbn.
    do 5 (split; [reflexivity|]).
    right. split; [now apply String.eqb_neq|].
    match goal with
    | Hg : geometry_truthy _ = Some ?g |- _ =>
        destruct (geometry_truthy_Some _ _ Hg) as [_ Hb];
        rewrite default_srid_shape, Hb
    end.
    eexists _, _, _. repeat split; first [reflexivity | eassumption].
Qed.


(** A fetch for a registry that is not a WMS one stores a row when the
    reply to its request has a geometry, the value parses and the
    registry has a time to live. *)
Lemma retrieve_context_value_stores (self : ContextServiceRegistry)
    (x y : Coord) (srid_ : Z) (w : World) (u content : string)
    (g : Geometry Shape) (v : option string) (ttl : Z) :
  query_type self <> WMS ->
  build_query_url self x y srid_ = Some u ->
  requests_get (List.length (network_log w)) u = Ok content ->
  geometry_truthy (parse_geometry self content) = Some g ->
  parse_request_value self content = Ok v ->
  time_to_live self = Some ttl ->
  exists (c : ContextCache) (w' : World),
    retrieve_context_value self x y srid_ w = (Ok (Some c), w')
    /\ caches w' = (caches w ++ [c])%list
    /\ cache_pk c = next_pk w
    /\ service_registry c = key self
    /\ value c = v
    /\ geometry c = Some (default_srid self g)
    /\ expired_time c = (utcnow w + ttl)%Z
    /\ source_uri c = str_truthy (Some u).
Proof.
  intros Hq Hu Hget Hg Hv Httl.
  apply String.eqb_neq in Hq.
  unfold retrieve_context_value. rewrite Hq, Hu.
  unfold http_get, bind, request_number, log_call, lift.
  rewrite Hget, Hg, Hv.
  unfold create_cache, bind, get_utcnow, save_new, ret. rewrite Httl.
  eexists _, _. split; [reflexivity|]. cbn.
  destruct (geometry_truthy_Some _ _ Hg) as [_ Hb].
  rewrite default_srid_shape, Hb.
  repeat split.
Qed.

End Fetch.

(** ** The expired entry *)

Section ExpiredEntry.

Context `{E : Externals}.

(** In a state of the engine, the registry of a row that has a geometry
    is not a WMS one. *)
Lemma row_registry_not_wms (w : World) (r : ContextServiceRegistry)
    (e : ContextCache) :
  world_inv w -> In r (registries w) ->
  In e (caches_of w r) -> geometry e <> None ->
  query_type r <> WMS.
Proof.
  intros [_ Hrows] Hr He Hg.
  unfold caches_of in He. apply filter_In in He as [He Hk].
  apply String.eqb_eq in Hk.
  rewrite Forall_forall in Hrows. destruct (Hrows e He) as [_ Hrow].
  intros Hq. apply Hg. apply (Hrow r Hr); auto.
Qed.

(** C2 (as amended).  In a state of the engine, when the first row of
    the requested registry that covers the point has expired, the lookup
    deletes that row and no other, looks at no row after it, and fetches
    afresh on the world without the row.  The fetch is the one of a
    registry that is not a WMS one: the request log grows by one GET of
    the query URL when the registry is a WFS one, and by nothing when
    [build_query_url] gives no URL.  When the reply to that request has
    a geometry, the value parses and the registry has a time to live, the
    lookup returns a new row under the next primary key, with the value
    and the geometry of the reply, expiring one time to live from now,
    and the cache table afterwards is the old one without the expired
    row and with the new one.  In every case the expired row is not
    what is returned, and it is gone afterwards. *)
Theorem retrieve_context_expired (x y : Coord) (k : string) (srid_ : Z)
    (w : World) (r : ContextServiceRegistry)
    (pre post : list ContextCache) (e : ContextCache) :
  world_inv w ->
  objects_get k w = (Ok r, w) ->
  caches_of w r = (pre ++ e :: post)%list ->
  covers e (query_point x y srid_) = true ->
  (expired_time e <= utcnow w)%Z ->
  Forall (fun c => covers c (query_point x y srid_) = false) pre ->
  retrieve_context x y k srid_ w
  = retrieve_context_value r x y srid_ (without e w)
  /\ (forall c, In c (caches (without e w)) <-> (In c (caches w) /\ c <> e))
  /\ query_type r <> WMS
  /\ network_log (snd (retrieve_context x y k srid_ w))
     = (match build_query_url r x y srid_ with
        | Some u => [HttpGet u]
        | None => []
        end ++ network_log w)%list
  /\ (query_type r = WFS ->
      exists u : string,
        build_query_url r x y srid_ = Some u
        /\ network_log (snd (retrieve_context x y k srid_ w))
           = HttpGet u :: network_log w)
  /\ (forall (u content : string) (g : Geometry Shape) (v : option string)
             (ttl : Z),
        build_query_url r x y srid_ = Some u ->
        requests_get (List.length (network_log w)) u = Ok content ->
        geometry_truthy (parse_geometry r content) = Some g ->
        parse_request_value r content = Ok v ->
        time_to_live r = Some ttl ->
        exists c : ContextCache,
          fst (retrieve_context x y k srid_ w) = Ok (Some c)
          /\ cache_pk c = next_pk w
          /\ service_registry c = key r
          /\ value c = v
          /\ geometry c = Some (default_srid r g)
          /\ expired_time c = (utcnow w + ttl)%Z
          /\ (forall c', In c' (caches (snd (retrieve_context x y k srid_ w)))
                         <-> ((In c' (caches w) /\ c' <> e) \/ c' = c)))
  /\ fst (retrieve_context x y k srid_ w) <> Ok (Some e)
  /\ ~ In e (caches (snd (retrieve_context x y k srid_ w))).
Proof.
  intros Hinv Hget Hl Hc Hdead Hpre.
  destruct (retrieve_context_delete_then_fetch x y k srid_ w r pre post e
              Hinv Hget Hl Hc Hdead Hpre) as (Heq & Hex & Hne & Hgone).
  assert (Hq : query_type r <> WMS).
  { apply objects_get_Ok in Hget as (_ & Hr & _).
    apply (row_registry_not_wms w r e Hinv Hr).
    - rewrite Hl. apply in_or_app. right. now left.
    - exact (covers_geometry _ e Hc). }
  assert (Hlog : network_log (snd (retrieve_context x y k srid_ w))
                 = (match build_query_url r x y srid_ with
                    | Some u => [HttpGet u]
                    | None => []
                    end ++ network_log w)%list).
  { rewrite Heq.
    destruct (retrieve_context_value r x y srid_ (without e w))
      as [res w'] eqn:Hval.
    exact (retrieve_context_value_log _ _ _ _ _ _ _ Hq Hval). }
  split; [exact Heq|]. split; [exact Hex|]. split; [exact Hq|].
  split; [exact Hlog|]. split; [|split; [|split; [exact Hne | exact Hgone]]].
  - intros Hwfs.
    destruct (build_query_url r x y srid_) as [u|] eqn:Hu;
      [|unfold build_query_url in Hu; rewrite Hwfs, String.eqb_refl in Hu;
        discriminate Hu].
    exists u. split; [reflexivity | exact Hlog].
  - intros u content g v ttl Hu Hreply Hg Hv Httl.
    destruct (retrieve_context_value_stores r x y srid_ (without e w)
                u content g v ttl Hq Hu Hreply Hg Hv Httl)
      as (c & w' & Hval & Hcs & Hpk & Hsr & Hvc & Hgc & Hexp & _).
    exists c. rewrite Heq, Hval. cbn [fst snd].
    split; [reflexivity|]. split; [exact Hpk|]. split; [exact Hsr|].
    split; [exact Hvc|]. split; [exact Hgc|]. split; [exact Hexp|].
    intros c'. rewrite Hcs, in_app_iff, Hex. simpl.
    split.
    + intros [H | [H | []]]; [left; exact H | right; now symmetry].
    + intros [H | H]; [left; exact H | right; left; now symmetry].
Qed.

End ExpiredEntry.

Lemma retrieve_context_expired_witness :
  world_inv Demo.expired_only /\
  caches_of Demo.expired_only Demo.soil
  = [Demo.far_row; Demo.stale_row; Demo.live_row] /\
  network_log (snd (retrieve_context (E := Demo.env) 10%Z 20%Z "soil" 4326%Z
                      Demo.expired_only))
  = [@HttpGet Demo.env
       ("http://svc/wfs?SERVICE=WFS&REQUEST=GetFeature&VERSION=2.0.0"
        ++ "&TYPENAME=ns%3Alayer&OUTPUTFORMAT=GML3&BBOX=9,19,11,21")] /\
  ~ In Demo.stale_row
      (caches (snd (retrieve_context (E := Demo.env) 10%Z 20%Z "soil" 4326%Z
                      Demo.expired_only))).
Proof.
  split; [exact expired_only_inv|]. split; [reflexivity|].
  destruct (retrieve_context_expired (E := Demo.env) 10%Z 20%Z "soil" 4326%Z
              Demo.expired_only Demo.soil
              [Demo.far_row] [Demo.live_row] Demo.stale_row)
    as (_ & _ & _ & Hlog & _ & _ & _ & Hgone).
  - exact expired_only_inv.
  - reflexivity.
  - reflexivity.
  - reflexivity.
  - vm_compute. discriminate.
  - repeat constructor.
  - split; [exact Hlog | exact Hgone].
Defined.

(** After two resolutions from the empty cache the registry [soil] has
    two rows that cover the point (10, 20); seen at time 1300000 both
    have expired.  The lookup deletes the first one only: the second
    one, expired and covering the point, is still in the table
    afterwards. *)
Lemma retrieve_context_expired_pair_counterexample :
  ~ (forall (x y : Z) (k : string) (srid_ : Z) (w : World (H := Demo.env))
            (r : ContextServiceRegistry) (e : ContextCache),
        world_inv w ->
        objects_get k w = (Ok r, w) ->
        In e (caches_of w r) ->
        covers e (query_point (E := Demo.env) x y srid_) = true ->
        (expired_time e <= utcnow w)%Z ->
        ~ In e (caches (snd (retrieve_context (E := Demo.env)
                               x y k srid_ w)))).
Proof.
  intros H.
  apply (H 10%Z 20%Z "soil" 4326%Z Demo.both_stale Demo.soil Demo.second_row).
  - apply at_time_inv. exact (proj2 overlapping_inv).
  - reflexivity.
  - right. left. reflexivity.
  - reflexivity.
  - vm_compute. discriminate.
  - vm_compute. left. reflexivity.
Qed.

(** ** Lookups: errors, what is sent and what is kept *)

Section LookupProperties.

Context `{E : Externals}.

(** X1.  A lookup for a key that no registry has raises [DoesNotExist]
    (the [Exception] of the next line of the code is never reached):
    nothing is scanned, deleted, sent or stored. *)
Theorem retrieve_context_unknown_key (x y : Coord) (k : string) (srid_ : Z)
    (w : World) :
  (forall r, In r (registries w) -> key r <> k) ->
  retrieve_context x y k srid_ w = (Raise DoesNotExist, w).
Proof.
  intros Hno. unfold retrieve_context, bind, objects_get.
  assert (Hf : filter (fun r => String.eqb (key r) k) (registries w) = []).
  { induction (registries w) as [|r l IH]; simpl; [reflexivity|].
    destruct (String.eqb_spec (key r) k) as [Hk | _].
    - exfalso. apply (Hno r); [now left | exact Hk].
    - apply IH. intros r' Hr'. apply Hno. now right. }
  now rewrite Hf.
Qed.

Lemma returned_row_registry (x y : Coord) (k : string) (srid_ : Z)
    (w w' : World) (c : ContextCache) :
  retrieve_context x y k srid_ w = (Ok (Some c), w') ->
  service_registry c = k.
Proof.
  intros H. apply retrieve_context_cases in H
    as [(e & _ & [=] & _)
       | (r & Hget & [(c0 & Hin & _ & _ & [= <-] & _)
                     | [([=] & _) | [Hval | (e & _ & _ & _ & Hval)]]])];
    apply objects_get_Ok in Hget as (_ & _ & Hk & _).
  - unfold caches_of in Hin. apply filter_In in Hin as [_ Hsr].
    apply String.eqb_eq in Hsr. congruence.
  - apply retrieve_context_value_row in Hval as (ttl & _ & _ & _ & Hsr & _).
    congruence.
  - apply retrieve_context_value_row in Hval as (ttl & _ & _ & _ & Hsr & _).
    congruence.
Qed.

(** X2.  A row that a lookup returns, be it a cached one or a fetched
    one, belongs to the registry that was asked for, and it is in the
    table afterwards. *)
Theorem retrieve_context_row_of_key (x y : Coord) (k : string) (srid_ : Z)
    (w w' : World) (c : ContextCache) :
  retrieve_context x y k srid_ w = (Ok (Some c), w') ->
  service_registry c = k /\ In c (caches w').
Proof.
  intros H. split; [exact (returned_row_registry _ _ _ _ _ _ _ H)|].
  apply retrieve_context_cases in H
    as [(e & _ & [=] & _)
       | (r & Hget & [(c0 & Hin & _ & _ & [= <-] & ->)
                     | [([=] & _) | [Hval | (e & _ & _ & _ & Hval)]]])].
  - unfold caches_of in Hin. now apply filter_In in Hin.
  - apply retrieve_context_value_row in Hval as (ttl & _ & -> & _).
    apply in_or_app. right. now left.
  - apply retrieve_context_value_row in Hval as (ttl & _ & -> & _).
    apply in_or_app. right. now left.
Qed.

(** X3.  In a state of the engine, a lookup removes no row that is still
    live and no row whose geometry does not contain the point: whatever
    the outcome, such a row is in the table afterwards. *)
Theorem retrieve_context_keeps_rows (x y : Coord) (k : string) (srid_ : Z)
    (w w' : World) (res : result (option ContextCache)) (c : ContextCache) :
  world_inv w ->
  retrieve_context x y k srid_ w = (res, w') ->
  In c (caches w) ->
  (utcnow w < expired_time c)%Z \/ covers c (query_point x y srid_) = false ->
  In c (caches w').
Proof.
  intros Hinv H Hc Hkeep.
  assert (Hgrow : forall w0 res0 w0' r,
             retrieve_context_value r x y srid_ w0 = (res0, w0') ->
             In c (caches w0) -> In c (caches w0')).
  { intros w0 res0 w0' r Hval Hin.
    apply retrieve_context_value_effect in Hval
      as (_ & _ & _ & [(-> & _) | (c' & _ & -> & _)]); [exact Hin|].
    apply in_or_app. now left. }
  apply retrieve_context_cases in H
    as [(e & _ & _ & ->)
       | (r & Hget & [(c0 & _ & _ & _ & _ & ->)
                     | [(_ & ->) | [Hval | (e & Hin & Hcov & Hdead & Hval)]]])];
    try exact Hc.
  - exact (Hgrow _ _ _ _ Hval Hc).
  - apply (Hgrow _ _ _ _ Hval).
    assert (He : In e (caches w))
      by (unfold caches_of in Hin; now apply filter_In in Hin).
    apply (without_exactly e w Hinv He). split; [exact Hc|].
    intros ->. destruct Hkeep as [Hlive | Hout]; [lia | congruence].
Qed.

(** X4.  A lookup that raises stores nothing: every row in the table
    afterwards was there before, and no primary key was used up. *)
Theorem retrieve_context_failure_stores_nothing (x y : Coord) (k : string)
    (srid_ : Z) (w w' : World) (e : exn) :
  retrieve_context x y k srid_ w = (Raise e, w') ->
  next_pk w' = next_pk w /\
  forall c, In c (caches w') -> In c (caches w).
Proof.
  intros H.
  assert (Hfail : forall w0 w0' r,
             retrieve_context_value r x y srid_ w0 = (Raise e, w0') ->
             next_pk w0' = next_pk w0 /\ caches w0' = caches w0).
  { intros w0 w0' r Hval.
    apply retrieve_context_value_effect in Hval
      as (_ & _ & _ & [(Hcs & Hpk & _) | (c' & [=] & _)]). auto. }
  apply retrieve_context_cases in H
    as [(e0 & _ & _ & ->)
       | (r & Hget & [(c0 & _ & _ & _ & [=] & _)
                     | [(_ & ->) | [Hval | (e0 & Hin & _ & _ & Hval)]]])];
    auto.
  - apply Hfail in Hval as [Hpk Hcs]. rewrite Hcs. auto.
  - apply Hfail in Hval as [Hpk Hcs]. rewrite Hcs, Hpk.
    split; [reflexivity|]. intros c Hc.
    rewrite without_caches in Hc. now apply filter_In in Hc.
Qed.

(** X5.  A lookup sends at most two requests, and two only for a WMS
    registry (the capabilities request of the constructor, then
    [GetFeatureInfo]): for any other registry it sends at most one.  The
    log of the requests sent before is kept below the new ones. *)
Theorem retrieve_context_requests_bound (x y : Coord) (k : string)
    (srid_ : Z) (w w' : World) (res : result (option ContextCache)) :
  retrieve_context x y k srid_ w = (res, w') ->
  exists calls : list NetCall,
    network_log w' = (calls ++ network_log w)%list
    /\ List.length calls <= 2
    /\ (forall r, objects_get k w = (Ok r, w) -> query_type r <> WMS ->
        List.length calls <= 1).
Proof.
  intros H.
  assert (Hlog : forall w0 r,
             network_log w0 = network_log w ->
             objects_get k w = (Ok r, w) ->
             retrieve_context_value r x y srid_ w0 = (res, w') ->
             exists calls : list NetCall,
               network_log w' = (calls ++ network_log w)%list
               /\ List.length calls <= 2
               /\ (forall r', objects_get k w = (Ok r', w) ->
                   query_type r' <> WMS -> List.length calls <= 1)).
  { intros w0 r Hw0 Hget Hval.
    destruct (String.eqb_spec (query_type r) WMS) as [Hq | Hq].
    - destruct (retrieve_context_value_log_wms _ _ _ _ _ _ _ Hq Hval)
        as [(Hl & _) | Hl]; rewrite Hl, Hw0.
      + exists [WmsGetCapabilities (url r) (service_version r)].
        split; [reflexivity|]. split; [simpl; lia|].
        intros r' Hget' Hq'. congruence.
      + exists [WmsGetFeatureInfo (wms_request r x y srid_);
                WmsGetCapabilities (url r) (service_version r)].
        split; [reflexivity|]. split; [simpl; lia|].
        intros r' Hget' Hq'. congruence.
    - rewrite (retrieve_context_value_log _ _ _ _ _ _ _ Hq Hval), Hw0.
      eexists. split; [reflexivity|].
      destruct (build_query_url r x y srid_); simpl; split; try lia;
        intros; lia. }
  assert (Hnone : exists calls : list NetCall,
             network_log w = (calls ++ network_log w)%list
             /\ List.length calls <= 2
             /\ (forall r, objects_get k w = (Ok r, w) ->
                 query_type r <> WMS -> List.length calls <= 1)).
  { exists []. simpl. repeat split; intros; lia. }
  apply retrieve_context_cases in H
    as [(e0 & _ & _ & ->)
       | (r & Hget & [(c0 & _ & _ & _ & _ & ->)
                     | [(_ & ->) | [Hval | (e0 & _ & _ & _ & Hval)]]])];
    auto.
  - exact (Hlog w r eq_refl Hget Hval).
  - exact (Hlog (without e0 w) r eq_refl Hget Hval).
Qed.

End LookupProperties.

(** ** Fetching and looking up again *)

Section Again.

Context `{E : Externals}.

Lemma caches_of_app (w w1 : World) (r : ContextServiceRegistry)
    (c : ContextCache) :
  caches w1 = (caches w ++ [c])%list ->
  service_registry c = key r ->
  caches_of w1 r = (caches_of w r ++ [c])%list.
Proof.
  intros Hcs Hsr. unfold caches_of. rewrite Hcs, filter_app. simpl.
  now rewrite Hsr, String.eqb_refl.
Qed.

Lemma filter_other_pk (l : list ContextCache) (n : nat) :
  ~ In n (map cache_pk l) ->
  filter (fun c => negb (Nat.eqb (cache_pk c) n)) l = l.
Proof.
  induction l as [|b l IH]; simpl; [reflexivity|].
  intros Hn. destruct (Nat.eqb_spec (cache_pk b) n) as [Hpk | _].
  - exfalso. apply Hn. now left.
  - simpl. rewrite IH; [reflexivity|]. intros H. apply Hn. now right.
Qed.

(** With no covering row in the table, a lookup that returns a row has
    fetched it. *)
Lemma retrieve_context_missed (x y : Coord) (k : string) (srid_ : Z)
    (w w1 : World) (r : ContextServiceRegistry) (c : ContextCache) :
  objects_get k w = (Ok r, w) ->
  Forall (fun c0 => covers c0 (query_point x y srid_) = false) (caches_of w r) ->
  retrieve_context x y k srid_ w = (Ok (Some c), w1) ->
  retrieve_context_value r x y srid_ w = (Ok (Some c), w1).
Proof.
  intros Hget Hmiss H. rewrite Forall_forall in Hmiss.
  apply retrieve_context_cases in H
    as [(e & He & _)
       | (r' & Hget' & [(c0 & Hin & Hcov & _)
                       | [([=] & _) | [Hval | (e & Hin & Hcov & _)]]])];
    [congruence | | | ];
    assert (r' = r) as -> by congruence.
  - rewrite (Hmiss c0 Hin) in Hcov. discriminate.
  - exact Hval.
  - rewrite (Hmiss e Hin) in Hcov. discriminate.
Qed.

(** A WFS fetch whose row has a geometry sent one GET of the query URL. *)
Lemma retrieve_context_value_sent (self : ContextServiceRegistry)
    (x y : Coord) (srid_ : Z) (w w1 : World) (c : ContextCache) :
  retrieve_context_value self x y srid_ w = (Ok (Some c), w1) ->
  geometry c <> None ->
  query_type self <> WMS /\
  exists u : string,
    build_query_url self x y srid_ = Some u
    /\ network_log w1 = HttpGet u :: network_log w.
Proof.
  intros Hval Hgeo. pose proof Hval as Hrow.
  apply retrieve_context_value_row in Hrow
    as (ttl & _ & _ & _ & _ & _ & _
        & [(_ & Hnone & _) | (Hq & u & _ & _ & Hu & _)]);
    [contradiction|].
  split; [exact Hq|]. exists u. split; [exact Hu|].
  rewrite (retrieve_context_value_log _ _ _ _ _ _ _ Hq Hval), Hu. reflexivity.
Qed.

(** When the upstream answers a second request as it answered the
    first, a WFS fetch that returned a row returns a new row with the same
    value and geometry. *)
Lemma retrieve_context_value_again (self : ContextServiceRegistry)
    (x y : Coord) (srid_ : Z) (w w1 w' : World) (c : ContextCache)
    (u : string) :
  retrieve_context_value self x y srid_ w = (Ok (Some c), w1) ->
  geometry c <> None ->
  build_query_url self x y srid_ = Some u ->
  requests_get (List.length (network_log w')) u
  = requests_get (List.length (network_log w)) u ->
  exists (c2 : ContextCache) (w2 : World),
    retrieve_context_value self x y srid_ w' = (Ok (Some c2), w2)
    /\ caches w2 = (caches w' ++ [c2])%list
    /\ geometry c2 = geometry c /\ value c2 = value c.
Proof.
  intros Hval Hgeo Hu Hsame.
  apply retrieve_context_value_row in Hval
    as (ttl & Httl & _ & _ & _ & _ & _
        & [(_ & Hnone & _)
          | (Hq & u' & content & g & Hu' & Hget & Hg & Hgc & Hv & _)]);
    [contradiction|].
  assert (u' = u) as -> by congruence.
  apply String.eqb_neq in Hq.
  unfold retrieve_context_value. rewrite Hq, Hu.
  unfold http_get, bind, request_number, log_call, lift.
  rewrite Hsame, Hget, Hg, Hv.
  unfold create_cache, bind, get_utcnow, save_new, ret. rewrite Httl.
  eexists _, _. split; [reflexivity|]. cbn.
  destruct (geometry_truthy_Some _ _ Hg) as [_ Hb].
  rewrite default_srid_shape, Hb.
  repeat split; auto.
Qed.

(** X6.  Fetch, then hit.  In a state of the engine in which no row of
    the registry covers the point, when the lookup returns a row whose
    geometry contains the point, a lookup of the same point at any time
    [t] before the row expires returns that very row and changes
    nothing: no second request is sent. *)
Theorem retrieve_context_fetch_then_hit (x y : Coord) (k : string)
    (srid_ : Z) (w w1 : World) (r : ContextServiceRegistry)
    (c : ContextCache) (t : Z) :
  world_inv w ->
  objects_get k w = (Ok r, w) ->
  Forall (fun c0 => covers c0 (query_point x y srid_) = false) (caches_of w r) ->
  retrieve_context x y k srid_ w = (Ok (Some c), w1) ->
  covers c (query_point x y srid_) = true ->
  (t < expired_time c)%Z ->
  retrieve_context x y k srid_ (at_time t w1) = (Ok (Some c), at_time t w1).
Proof.
  intros Hinv Hget Hmiss H Hcov Hlive.
  destruct (retrieve_context_inv _ _ _ _ _ _ _ Hinv H) as (Hinv1 & Hregs & _).
  apply (retrieve_context_missed x y k srid_ w w1 r c Hget Hmiss) in H.
  apply retrieve_context_value_row in H
    as (ttl & _ & Hcs & _ & Hsr & _).
  assert (Hget1 : objects_get k (at_time t w1) = (Ok r, at_time t w1))
    by (apply (objects_get_stable k w); [exact Hregs | exact Hget]).
  assert (Hl : caches_of (at_time t w1) r = (caches_of w r ++ [c])%list)
    by (apply (caches_of_app w); assumption).
  rewrite (retrieve_context_unfold x y k srid_ _ r Hget1), Hl.
  rewrite scan_caches_hit; [reflexivity | | exact Hcov | exact Hlive].
  apply (scanned_before _ (at_time t w1) r (caches_of w r) [] c).
  - apply at_time_inv. exact Hinv1.
  - apply objects_get_Ok in Hget1. tauto.
  - exact Hl.
  - exact Hcov.
  - exact Hmiss.
Qed.

(** X7.  Fetch, then fetch again.  When the geometry of the row that a
    lookup fetched does not contain the point that was asked for, the row
    is of no use to that point: the next lookup of it, at any time, is a
    miss again and sends the same GET a second time, whatever the
    upstream then answers.  If the upstream answers as it did the first
    time, a second row with the same value and geometry is appended. *)
Theorem retrieve_context_refetch_outside_geometry (x y : Coord)
    (k : string) (srid_ : Z) (w w1 : World) (r : ContextServiceRegistry)
    (c : ContextCache) (t : Z) :
  world_inv w ->
  objects_get k w = (Ok r, w) ->
  Forall (fun c0 => covers c0 (query_point x y srid_) = false) (caches_of w r) ->
  retrieve_context x y k srid_ w = (Ok (Some c), w1) ->
  geometry c <> None ->
  covers c (query_point x y srid_) = false ->
  exists u : string,
    build_query_url r x y srid_ = Some u
    /\ network_log w1 = HttpGet u :: network_log w
    /\ retrieve_context x y k srid_ (at_time t w1)
       = retrieve_context_value r x y srid_ (at_time t w1)
    /\ network_log (snd (retrieve_context x y k srid_ (at_time t w1)))
       = HttpGet u :: HttpGet u :: network_log w
    /\ (requests_get (S (List.length (network_log w))) u
        = requests_get (List.length (network_log w)) u ->
        exists (c2 : ContextCache) (w2 : World),
          retrieve_context x y k srid_ (at_time t w1) = (Ok (Some c2), w2)
          /\ caches w2 = (caches w ++ [c; c2])%list
          /\ geometry c2 = geometry c /\ value c2 = value c).
Proof.
  intros Hinv Hget Hmiss H Hgeo Hout.
  destruct (retrieve_context_inv _ _ _ _ _ _ _ Hinv H) as (Hinv1 & Hregs & _).
  apply (retrieve_context_missed x y k srid_ w w1 r c Hget Hmiss) in H.
  destruct (retrieve_context_value_sent r x y srid_ w w1 c H Hgeo)
    as (Hq & u & Hu & Hlog1).
  pose proof H as Hrow. apply retrieve_context_value_row in Hrow
    as (ttl & _ & Hcs & _ & Hsr & _).
  assert (Hget1 : objects_get k (at_time t w1) = (Ok r, at_time t w1))
    by (apply (objects_get_stable k w); [exact Hregs | exact Hget]).
  assert (Hl : caches_of (at_time t w1) r = (caches_of w r ++ [c])%list)
    by (apply (caches_of_app w); assumption).
  assert (Heq : retrieve_context x y k srid_ (at_time t w1)
                = retrieve_context_value r x y srid_ (at_time t w1)).
  { apply retrieve_context_miss.
    - apply at_time_inv. exact Hinv1.
    - exact Hget1.
    - exact Hq.
    - rewrite Hl. apply Forall_app. split; [exact Hmiss|].
      constructor; [exact Hout | constructor]. }
  exists u. split; [exact Hu|]. split; [exact Hlog1|]. split; [exact Heq|].
  split.
  - rewrite Heq.
    destruct (retrieve_context_value r x y srid_ (at_time t w1))
      as [res2 w2] eqn:Hval2.
    cbn [snd].
    rewrite (retrieve_context_value_log _ _ _ _ _ _ _ Hq Hval2), Hu.
    simpl. now rewrite Hlog1.
  - intros Hsame.
    destruct (retrieve_context_value_again r x y srid_ w w1 (at_time t w1) c u
                H Hgeo Hu)
      as (c2 & w2 & Hval2 & Hcs2 & Hg2 & Hv2).
    { simpl. rewrite Hlog1. simpl. exact Hsame. }
    exists c2, w2. split; [now rewrite Heq|].
    split; [|auto].
    rewrite Hcs2. simpl. rewrite Hcs, <- app_assoc. reflexivity.
Qed.

(** X8.  In a state of the engine, a WMS registry that has a cached row
    cannot be looked up: the scan meets a row without geometry and raises
    [AttributeError], whatever the point, the time and the expiry of the
    rows; nothing is sent or changed. *)
Theorem retrieve_context_wms_cached_raises (x y : Coord) (k : string)
    (srid_ : Z) (w : World) (r : ContextServiceRegistry) :
  world_inv w ->
  objects_get k w = (Ok r, w) ->
  query_type r = WMS ->
  caches_of w r <> [] ->
  retrieve_context x y k srid_ w = (Raise AttributeError, w).
Proof.
  intros [_ Hrows] Hget Hq Hne.
  destruct (caches_of w r) as [|c post] eqn:Hl; [contradiction|].
  apply (retrieve_context_no_geometry x y k srid_ w r post c Hget Hl).
  assert (Hin : In c (caches_of w r)) by (rewrite Hl; now left).
  unfold caches_of in Hin. apply filter_In in Hin as [Hin Hk].
  apply String.eqb_eq in Hk.
  apply objects_get_Ok in Hget as (_ & Hr & _).
  rewrite Forall_forall in Hrows. destruct (Hrows c Hin) as [_ Hrow].
  now apply (Hrow r Hr).
Qed.

(** X9.  In a state of the engine, a row that a lookup returns is either
    a cached row, live and covering the point, returned with the world
    untouched, or a row that was not in the table, stored under the next
    primary key after the requests of its fetch: one GET, or the
    capabilities request and the [GetFeatureInfo] request of a WMS
    registry. *)
Theorem retrieve_context_returns_hit_or_new (x y : Coord) (k : string)
    (srid_ : Z) (w w' : World) (c : ContextCache) :
  world_inv w ->
  retrieve_context x y k srid_ w = (Ok (Some c), w') ->
  (In c (caches w) /\ w' = w
   /\ covers c (query_point x y srid_) = true
   /\ (utcnow w < expired_time c)%Z)
  \/
  (~ In c (caches w) /\ cache_pk c = next_pk w /\ In c (caches w')
   /\ ((exists u, network_log w' = HttpGet u :: network_log w)
       \/ (exists q u v,
             network_log w'
             = WmsGetFeatureInfo q :: WmsGetCapabilities u v :: network_log w))).
Proof.
  intros [_ Hrows] H.
  assert (Hnew : forall w0 r,
             next_pk w0 = next_pk w ->
             network_log w0 = network_log w ->
             retrieve_context_value r x y srid_ w0 = (Ok (Some c), w') ->
             ~ In c (caches w) /\ cache_pk c = next_pk w /\ In c (caches w')
             /\ ((exists u, network_log w' = HttpGet u :: network_log w)
                 \/ (exists q u v,
                       network_log w'
                       = WmsGetFeatureInfo q :: WmsGetCapabilities u v
                         :: network_log w))).
  { intros w0 r Hpk0 Hlog0 Hval. pose proof Hval as Hrow.
    apply retrieve_context_value_row in Hrow
      as (ttl & _ & Hcs & Hpk & _ & _ & _ & Hkind).
    split.
    { intros Hin. rewrite Forall_forall in Hrows.
      destruct (Hrows c Hin) as [Hlt _]. lia. }
    split; [congruence|].
    split; [rewrite Hcs; apply in_or_app; right; now left|].
    destruct Hkind as [(Hq & _) | (Hq & u & _ & _ & Hu & _)].
    - right.
      destruct (retrieve_context_value_log_wms _ _ _ _ _ _ _ Hq Hval)
        as [(_ & e & [=]) | Hl].
      rewrite Hl, Hlog0. eexists _, _, _. reflexivity.
    - left. rewrite (retrieve_context_value_log _ _ _ _ _ _ _ Hq Hval), Hu, Hlog0.
      eexists. reflexivity. }
  apply retrieve_context_cases in H
    as [(e & _ & [=] & _)
       | (r & Hget & [(c0 & Hin & Hcov & Hlive & [= <-] & ->)
                     | [([=] & _) | [Hval | (e & _ & _ & _ & Hval)]]])].
  - left. unfold caches_of in Hin. apply filter_In in Hin as [Hin _]. auto.
  - right. exact (Hnew w r eq_refl eq_refl Hval).
  - right. exact (Hnew (without e w) r eq_refl eq_refl Hval).
Qed.

(** X10.  In a state of the engine, a lookup for one registry leaves the
    rows of all the other registries as they are, in their order. *)
Theorem retrieve_context_other_registries_untouched (x y : Coord)
    (k : string) (srid_ : Z) (w w' : World)
    (res : result (option ContextCache)) :
  world_inv w ->
  retrieve_context x y k srid_ w = (res, w') ->
  caches_of_others w' k = caches_of_others w k.
Proof.
  intros Hinv H.
  assert (Hfetch : forall w0 r,
             key r = k ->
             retrieve_context_value r x y srid_ w0 = (res, w') ->
             caches_of_others w' k = caches_of_others w0 k).
  { intros w0 r Hk Hval. unfold caches_of_others.
    apply retrieve_context_value_effect in Hval
      as (_ & _ & _ & [(-> & _) | (c' & _ & -> & _ & _ & Hsr & _)]);
      [reflexivity|].
    rewrite filter_app. simpl.
    rewrite Hsr, Hk, String.eqb_refl. simpl. now rewrite app_nil_r. }
  apply retrieve_context_cases in H
    as [(e & _ & _ & ->)
       | (r & Hget & [(c0 & _ & _ & _ & _ & ->)
                     | [(_ & ->) | [Hval | (e & Hin & _ & _ & Hval)]]])];
    try reflexivity;
    apply objects_get_Ok in Hget as (_ & _ & Hk & _).
  - exact (Hfetch w r Hk Hval).
  - rewrite (Hfetch _ r Hk Hval).
    unfold caches_of_others. rewrite without_caches.
    unfold caches_of in Hin. apply filter_In in Hin as [Hin Hsr].
    apply String.eqb_eq in Hsr.
    destruct Hinv as [Hnd _]. clear - Hnd Hin Hsr Hk.
    induction (caches w) as [|a l IH]; [reflexivity|].
    simpl in Hnd. inversion Hnd as [|? ? Hnotin Hnd']; subst.
    simpl. destruct Hin as [-> | Hin].
    + rewrite Nat.eqb_refl. simpl. rewrite Hsr, String.eqb_refl. simpl.
      now rewrite (filter_other_pk l (cache_pk e) Hnotin).
    + destruct (Nat.eqb_spec (cache_pk a) (cache_pk e)) as [Hpk | _].
      * exfalso. apply Hnotin. rewrite Hpk. now apply in_map.
      * simpl. now rewrite (IH Hnd' Hin).
Qed.

End Again.

(** ** Fetches: WMS, rows and time to live *)

Section FetchProperties.

Context `{E : Externals}.


(** X12.  A registry whose time to live is null never gets a row: a
    fetch for it returns no row or raises, and the cache table stays as
    it was, although the request was sent. *)
Theorem retrieve_context_value_no_ttl (self : ContextServiceRegistry)
    (x y : Coord) (srid_ : Z) (w w' : World)
    (res : result (option ContextCache)) :
  time_to_live self = None ->
  retrieve_context_value self x y srid_ w = (res, w') ->
  caches w' = caches w /\ forall c, res <> Ok (Some c).
Proof.
  intros Httl H.
  assert (Hno : forall c, res <> Ok (Some c)).
  { intros c ->. apply retrieve_context_value_row in H as (ttl & Hsome & _).
    congruence. }
  split; [|exact Hno].
  apply retrieve_context_value_effect in H
    as (_ & _ & _ & [(Hcs & _) | (c & -> & _)]); [exact Hcs|].
  exfalso. now apply (Hno c).
Qed.

(** X13.  The row a fetch stores: it is appended to the table, carries
    the key of the registry as its name, expires [time_to_live] seconds
    after the time of the fetch and, for a registry that is not a WMS
    one, records the query URL as its source. *)
Theorem retrieve_context_value_stored_row (self : ContextServiceRegistry)
    (x y : Coord) (srid_ : Z) (w w' : World) (c : ContextCache) :
  retrieve_context_value self x y srid_ w = (Ok (Some c), w') ->
  exists ttl : Z,
    time_to_live self = Some ttl
    /\ expired_time c = (utcnow w + ttl)%Z
    /\ cache_name c = key self
    /\ service_registry c = key self
    /\ caches w' = (caches w ++ [c])%list
    /\ (query_type self <> WMS ->
        source_uri c = str_truthy (build_query_url self x y srid_)).
Proof.
  intros H. apply retrieve_context_value_row in H
    as (ttl & Httl & Hcs & _ & Hsr & Hname & Hexp & Hkind).
  exists ttl. repeat split; auto.
  intros Hne. destruct Hkind as [(Hq & _) | (_ & u & _ & _ & Hu & _ & _ & _ & _ & Hsrc)];
    [contradiction|].
  now rewrite Hu.
Qed.

End FetchProperties.

(** ** [parse_request_value]: which element gives the value *)

Lemma get_elements_filter (name : string) (n : Node) :
  get_elements_by_tagName_helper name n
  = filter (tag_selected name) (node_elements n).
Proof.
  induction n as [t cs IH | d | d] using Node_ind_nested; try reflexivity.
  simpl.
  assert (Hcs : flat_map (get_elements_by_tagName_helper name) cs
                = filter (tag_selected name) (flat_map node_elements cs)).
  { induction IH as [|c cs Hc _ IHcs]; simpl; [reflexivity|].
    now rewrite filter_app, Hc, IHcs. }
  rewrite Hcs.
  destruct (String.eqb name "*" || String.eqb t name); reflexivity.
Qed.

Lemma getElementsByTagName_filter (doc : Document) (name : string) :
  getElementsByTagName doc name
  = filter (tag_selected name) (document_elements doc).
Proof.
  unfold getElementsByTagName, document_elements.
  induction doc as [|n doc IH]; simpl; [reflexivity|].
  now rewrite filter_app, get_elements_filter, IH.
Qed.

Lemma filter_head_find {A : Type} (f : A -> bool) (l : list A) :
  find f l = match filter f l with [] => None | a :: _ => Some a end.
Proof.
  induction l as [|a l IH]; simpl; [reflexivity|].
  destruct (f a); [reflexivity | exact IH].
Qed.

Section ParseProperties.

Context `{E : Externals}.

(** X14.  For a WFS or WMS registry and a payload that parses, the value
    is read from the first element in document order whose tag is
    [result_regex] (any element when [result_regex] is [*]): it is the
    [nodeValue] of the first child of that element, and there is no value
    when no element is selected, when the selected element is empty or
    when its first child is itself an element.  Later elements with the
    same tag are never read. *)
Theorem parse_request_value_document_order (self : ContextServiceRegistry)
    (content : string) (doc : Document) :
  query_type self = WFS \/ query_type self = WMS ->
  minidom_parseString content = Ok doc ->
  parse_request_value self content
  = Ok (match find (tag_selected (result_regex self)) (document_elements doc) with
        | Some n => first_child_value n
        | None => None
        end).
Proof.
  intros Hq Hdoc. unfold parse_request_value.
  assert (Hb : String.eqb (query_type self) WFS
               || String.eqb (query_type self) WMS = true).
  { destruct Hq as [-> | ->]; reflexivity. }
  rewrite Hb, Hdoc, getElementsByTagName_filter, filter_head_find.
  destruct (filter _ (document_elements doc)) as [|n l]; [reflexivity|].
  unfold first_child_value. destruct (childNodes_of n); reflexivity.
Qed.

(** X15.  [parse_request_value] adds no exception of its own: it raises
    exactly when the registry is a WFS or WMS one and [parseString]
    raises on the payload, and what it raises is then the exception of
    the parser, unchanged.  The [IndexError] of an absent tag or of an
    empty element never leaves the function, and a registry of another
    type never reaches the parser. *)
Theorem parse_request_value_raises_iff (self : ContextServiceRegistry)
    (content : string) (e : exn) :
  parse_request_value self content = Raise e
  <-> ((query_type self = WFS \/ query_type self = WMS)
       /\ minidom_parseString content = Raise e).
Proof.
  unfold parse_request_value. split.
  - destruct (String.eqb_spec (query_type self) WFS) as [Hq | Hq];
      destruct (String.eqb_spec (query_type self) WMS) as [Hq' | Hq']; simpl;
      try discriminate;
      (destruct (minidom_parseString content) as [doc | e'];
       [destruct (getElementsByTagName doc (result_regex self)) as [|n l];
        [discriminate | destruct (childNodes_of n); discriminate]
       | intros [= <-]; auto]).
  - intros ([-> | ->] & ->); reflexivity.
Qed.

End ParseProperties.

(** ** Context groups: the keys listed and the values resolved *)

Lemma insert_by_order_perm (s : ContextGroupServices)
    (l : list ContextGroupServices) :
  Permutation (insert_by_order s l) (s :: l).
Proof.
  induction l as [|t l IH]; simpl; [reflexivity|].
  destruct (order t <? order s)%Z; [|reflexivity].
  rewrite IH. apply perm_swap.
Qed.

Lemma insert_by_order_sorted (s : ContextGroupServices)
    (l : list ContextGroupServices) :
  Sorted (fun a b => (order a <= order b)%Z) l ->
  Sorted (fun a b => (order a <= order b)%Z) (insert_by_order s l).
Proof.
  induction 1 as [|t l Hsorted IH Hhd]; simpl.
  - repeat constructor.
  - destruct (order t <? order s)%Z eqn:Hlt.
    + constructor; [exact IH|].
      apply Z.ltb_lt in Hlt.
      destruct l as [|t' l']; simpl.
      * constructor. lia.
      * destruct (order t' <? order s)%Z; constructor;
          [now inversion Hhd | lia].
    + apply Z.ltb_ge in Hlt.
      constructor; [constructor; assumption | constructor; exact Hlt].
Qed.

Section GroupProperties.

Context `{E : Externals}.

(** X16.  The services of a group as the serializer and the value object
    query them: exactly the rows of the table that are of the group, each
    one once, in nondecreasing [order]; the keys listed are the registry
    keys of these rows, in that sequence. *)
Theorem get_context_service_registry_keys_ordered (g : string) (w : World) :
  Permutation (group_services_of g w)
    (filter (fun s => String.eqb (context_group s) g) (group_services w))
  /\ Sorted (fun a b => (order a <= order b)%Z) (group_services_of g w)
  /\ List.length (get_context_service_registry_keys g w)
     = List.length
         (filter (fun s => String.eqb (context_group s) g) (group_services w)).
Proof.
  unfold get_context_service_registry_keys, group_services_of.
  induction (filter _ (group_services w)) as [|s l (Hperm & Hsorted & Hlen)];
    simpl.
  - repeat split; constructor.
  - split; [|split].
    + rewrite insert_by_order_perm. now constructor.
    + now apply insert_by_order_sorted.
    + rewrite length_map in *.
      rewrite (Permutation_length (insert_by_order_perm s _)). simpl.
      now rewrite Hlen.
Qed.

Lemma resolve_each_aligned (x y : Coord) (srid_ : Z)
    (l : list ContextGroupServices)
    (acc vs : list (option ContextCache)) (w w' : World) :
  resolve_each x y srid_ l acc w = (Ok vs, w') ->
  exists vs', vs = (acc ++ vs')%list /\
    Forall2 (fun k v => forall c, v = Some c -> service_registry c = k)
      (map context_service_registry l) vs'.
Proof.
  revert acc w. induction l as [|s l IH]; intros acc w; simpl.
  - intros [= <- _]. exists []. split; [now rewrite app_nil_r | constructor].
  - unfold bind.
    destruct (retrieve_context x y (context_service_registry s) srid_ w)
      as [[v | e] w0] eqn:Hs; [|discriminate].
    intros H. apply IH in H as (vs' & -> & Hall).
    exists (v :: vs'). split; [now rewrite <- app_assoc|].
    constructor; [|exact Hall].
    intros c ->. exact (returned_row_registry _ _ _ _ _ _ _ Hs).
Qed.

Lemma populate_service_registry_values_aligned_helper (x y : Coord)
    (g : string) (srid_ : Z) (w w' : World)
    (vs : list (option ContextCache)) :
  populate_service_registry_values x y g srid_ w = (Ok vs, w') ->
  Forall2 (fun k v => forall c, v = Some c -> service_registry c = k)
    (get_context_service_registry_keys g w) vs.
Proof.
  unfold populate_service_registry_values. intros H.
  apply resolve_each_aligned in H as (vs' & -> & Hall). exact Hall.
Qed.

(** X17.  When the resolution of a group returns, its list of values
    runs parallel to the keys the serializer lists for the group: as many
    values as keys, and a value that is a row is a row of the registry
    whose key stands at the same position. *)
Theorem populate_service_registry_values_aligned (x y : Coord)
    (g : string) (srid_ : Z) (w w' : World)
    (vs : list (option ContextCache)) :
  populate_service_registry_values x y g srid_ w = (Ok vs, w') ->
  Forall2 (fun k v => forall c, v = Some c -> service_registry c = k)
    (get_context_service_registry_keys g w) vs
  /\ List.length vs
     = List.length
         (filter (fun s => String.eqb (context_group s) g) (group_services w)).
Proof.
  intros H.
  pose proof (populate_service_registry_values_aligned_helper _ _ _ _ _ _ _ H)
    as Hall.
  split; [exact Hall|].
  rewrite <- (Forall2_length Hall).
  unfold get_context_service_registry_keys, group_services_of.
  rewrite length_map. clear.
  induction (filter _ (group_services w)) as [|s l IH]; simpl; [reflexivity|].
  rewrite (Permutation_length (insert_by_order_perm s _)). simpl.
  now rewrite IH.
Qed.

Lemma retrieve_context_next_pk (x y : Coord) (k : string) (srid_ : Z)
    (w w' : World) (res : result (option ContextCache)) :
  retrieve_context x y k srid_ w = (res, w') ->
  next_pk w <= next_pk w' /\ utcnow w' = utcnow w.
Proof.
  intros H.
  assert (Hval : forall w0 r,
             retrieve_context_value r x y srid_ w0 = (res, w') ->
             next_pk w0 <= next_pk w' /\ utcnow w' = utcnow w0).
  { intros w0 r Hv. apply retrieve_context_value_effect in Hv
      as (_ & _ & Hnow & [(_ & Hpk & _) | (c & _ & _ & Hpk & _)]);
      split; auto; lia. }
  apply retrieve_context_cases in H
    as [(e & _ & _ & ->)
       | (r & Hget & [(c0 & _ & _ & _ & _ & ->)
                     | [(_ & ->) | [Hv | (e & _ & _ & _ & Hv)]]])];
    auto.
  - exact (Hval _ _ Hv).
  - exact (Hval _ _ Hv).
Qed.

Lemma resolve_each_tables (x y : Coord) (srid_ : Z)
    (l : list ContextGroupServices) (acc : list (option ContextCache))
    (w w' : World) (res : result (list (option ContextCache))) :
  world_inv w ->
  resolve_each x y srid_ l acc w = (res, w') ->
  world_inv w' /\ registries w' = registries w
  /\ group_services w' = group_services w
  /\ next_pk w <= next_pk w' /\ utcnow w' = utcnow w.
Proof.
  revert acc w. induction l as [|s l IH]; intros acc w Hinv; simpl.
  - intros [= <- <-]. auto.
  - unfold bind.
    destruct (retrieve_context x y (context_service_registry s) srid_ w)
      as [[c | e] w0] eqn:Hs;
      destruct (retrieve_context_inv _ _ _ _ _ _ _ Hinv Hs) as (Hinv0 & Hr0 & Hg0);
      destruct (retrieve_context_next_pk _ _ _ _ _ _ _ Hs) as [Hpk0 Hnow0].
    + intros H. apply (IH _ _ Hinv0) in H as (Hinv' & Hr & Hg & Hpk & Hnow).
      split; [exact Hinv'|]. split; [congruence|]. split; [congruence|].
      split; [lia | congruence].
    + intros [= <- <-]. auto.
Qed.

(** X18.  The resolution of a group, whether it returns or raises half
    way, keeps the engine in one of its states (unique primary keys below
    the next one, geometry on every row but those of WMS registries),
    changes neither the registries nor the groups, and never takes a
    primary key back. *)
Theorem populate_service_registry_values_keeps_inv (x y : Coord)
    (g : string) (srid_ : Z) (w w' : World)
    (res : result (list (option ContextCache))) :
  world_inv w ->
  populate_service_registry_values x y g srid_ w = (res, w') ->
  world_inv w' /\ registries w' = registries w
  /\ group_services w' = group_services w
  /\ next_pk w <= next_pk w'.
Proof.
  unfold populate_service_registry_values. intros Hinv H.
  apply (resolve_each_tables _ _ _ _ _ _ _ _ Hinv) in H. tauto.
Qed.

(** X19.  A [ContextGroupValue] that was constructed is the one of the
    group asked for: its key is the requested key, its name that of the
    one group with this key, and its values run parallel to the keys the
    serializer lists for the group. *)
Theorem ContextGroupValue_init_returned (groups : list ContextGroup)
    (x y : Coord) (k : string) (srid_ : Z) (w w' : World)
    (v : ContextGroupValue) :
  ContextGroupValue_init groups x y k srid_ w = (Returned v, w') ->
  cgv_key v = k
  /\ In (cgv_context_group v) groups
  /\ cgv_name v = group_name (cgv_context_group v)
  /\ (forall g', In g' groups -> group_key g' = k -> g' = cgv_context_group v)
  /\ Forall2 (fun k' c' => forall c, c' = Some c -> service_registry c = k')
       (get_context_service_registry_keys k w)
       (cgv_service_registry_values v).
Proof.
  unfold ContextGroupValue_init.
  destruct (filter (fun g0 => String.eqb (group_key g0) k) groups)
    as [|g0 [|g1 l]] eqn:Hf; try discriminate.
  assert (Hin : In g0 (filter (fun g0 => String.eqb (group_key g0) k) groups))
    by (rewrite Hf; now left).
  apply filter_In in Hin as [Hin Hk]. apply String.eqb_eq in Hk.
  destruct (populate_service_registry_values x y (group_key g0) srid_ w)
    as [[vs | e] w0] eqn:Hpop; intros [= <- <-]; simpl.
  repeat split; auto.
  - intros g' Hg' Hk'.
    assert (Hin' : In g' (filter (fun g0 => String.eqb (group_key g0) k) groups)).
    { apply filter_In. split; [exact Hg'|]. now apply String.eqb_eq. }
    rewrite Hf in Hin'. destruct Hin' as [<- | []]. reflexivity.
  - rewrite <- Hk.
    exact (populate_service_registry_values_aligned_helper _ _ _ _ _ _ _ Hpop).
Qed.

(** X20.  Constructing a [ContextGroupValue] for a key that no group
    has raises [Http404] before anything is looked up: no row is read or
    deleted and nothing is sent, also when rows of the services table
    carry that key. *)
Theorem ContextGroupValue_init_unknown_group (groups : list ContextGroup)
    (x y : Coord) (k : string) (srid_ : Z) (w : World) :
  (forall g', In g' groups -> group_key g' <> k) ->
  ContextGroupValue_init groups x y k srid_ w = (Aborted Http404, w).
Proof.
  intros Hno. unfold ContextGroupValue_init.
  assert (Hf : filter (fun g0 => String.eqb (group_key g0) k) groups = []).
  { induction groups as [|g0 l IH]; simpl; [reflexivity|].
    destruct (String.eqb_spec (group_key g0) k) as [Hk | _].
    - exfalso. apply (Hno g0); [now left | exact Hk].
    - apply IH. intros g' Hg'. apply Hno. now right. }
  now rewrite Hf.
Qed.

End GroupProperties.

(** ** The further properties on the concrete deployment *)

Lemma rained_inv : world_inv DemoGroup.rained.
Proof.
  exact (proj1 (retrieve_context_inv (E := Demo.env) _ _ _ _ _ _ _ fresh_inv
                  (surjective_pairing _))).
Qed.

Lemma retrieve_context_unknown_key_witness :
  (forall r, In r (registries Demo.fresh) -> key r <> "nowhere") /\
  retrieve_context (E := Demo.env) 10%Z 20%Z "nowhere" 4326%Z Demo.fresh
  = (Raise DoesNotExist, Demo.fresh).
Proof.
  assert (H : forall r, In r (registries Demo.fresh) -> key r <> "nowhere").
  { intros r Hr. simpl in Hr.
    repeat (destruct Hr as [<- | Hr]; [discriminate|]). contradiction. }
  split; [exact H|].
  exact (retrieve_context_unknown_key (E := Demo.env) _ _ _ _ _ H).
Defined.

Lemma retrieve_context_row_of_key_witness :
  retrieve_context (E := Demo.env) 10%Z 20%Z "soil" 4326%Z Demo.fresh
  = (Ok (Some Demo.first_row), Demo.after_first) /\
  service_registry Demo.first_row = "soil" /\
  In Demo.first_row (caches Demo.after_first).
Proof.
  assert (H : retrieve_context (E := Demo.env) 10%Z 20%Z "soil" 4326%Z Demo.fresh
              = (Ok (Some Demo.first_row), Demo.after_first))
    by (vm_compute; reflexivity).
  split; [exact H|].
  exact (retrieve_context_row_of_key (E := Demo.env) _ _ _ _ _ _ _ H).
Defined.

Lemma retrieve_context_keeps_rows_witness :
  world_inv Demo.expired_only /\
  (utcnow Demo.expired_only < expired_time Demo.live_row)%Z /\
  In Demo.live_row
    (caches (snd (retrieve_context (E := Demo.env) 10%Z 20%Z "soil" 4326%Z
                    Demo.expired_only))).
Proof.
  assert (Hlive : (utcnow Demo.expired_only < expired_time Demo.live_row)%Z)
    by (vm_compute; reflexivity).
  split; [exact expired_only_inv|]. split; [exact Hlive|].
  apply (retrieve_context_keeps_rows (E := Demo.env) 10%Z 20%Z "soil" 4326%Z
           Demo.expired_only _ _ Demo.live_row expired_only_inv
           (surjective_pairing _)).
  - simpl. auto.
  - left. exact Hlive.
Defined.

Lemma retrieve_context_failure_stores_nothing_witness :
  retrieve_context (E := Demo.env) 10%Z 20%Z "down" 4326%Z Demo.fresh
  = (Raise (NetworkError "connection refused"),
     snd (retrieve_context (E := Demo.env) 10%Z 20%Z "down" 4326%Z Demo.fresh))
  /\ next_pk (snd (retrieve_context (E := Demo.env) 10%Z 20%Z "down" 4326%Z
                     Demo.fresh)) = next_pk Demo.fresh.
Proof.
  assert (H : retrieve_context (E := Demo.env) 10%Z 20%Z "down" 4326%Z Demo.fresh
              = (Raise (NetworkError "connection refused"),
                 snd (retrieve_context (E := Demo.env) 10%Z 20%Z "down" 4326%Z
                        Demo.fresh)))
    by (vm_compute; reflexivity).
  split; [exact H|].
  exact (proj1 (retrieve_context_failure_stores_nothing (E := Demo.env)
                  _ _ _ _ _ _ _ H)).
Defined.

Lemma retrieve_context_requests_bound_witness :
  exists calls : list NetCall,
    network_log (snd (retrieve_context (E := Demo.env) 10%Z 20%Z "soil" 4326%Z
                        Demo.fresh))
    = (calls ++ network_log Demo.fresh)%list
    /\ List.length calls <= 2
    /\ (forall r, objects_get "soil" Demo.fresh = (Ok r, Demo.fresh) ->
        query_type r <> WMS -> List.length calls <= 1).
Proof.
  exact (retrieve_context_requests_bound (E := Demo.env) 10%Z 20%Z "soil"
           4326%Z Demo.fresh _ _ (surjective_pairing _)).
Defined.

Lemma retrieve_context_fetch_then_hit_witness :
  covers Demo.first_row (query_point (E := Demo.env) 10%Z 20%Z 4326%Z) = true /\
  (2000 < expired_time Demo.first_row)%Z /\
  retrieve_context (E := Demo.env) 10%Z 20%Z "soil" 4326%Z
    (at_time 2000 Demo.after_first)
  = (Ok (Some Demo.first_row), at_time 2000 Demo.after_first).
Proof.
  assert (Hlive : (2000 < expired_time Demo.first_row)%Z)
    by (vm_compute; reflexivity).
  split; [reflexivity|]. split; [exact Hlive|].
  apply (retrieve_context_fetch_then_hit (E := Demo.env) 10%Z 20%Z "soil"
           4326%Z Demo.fresh Demo.after_first Demo.soil Demo.first_row 2000%Z).
  - exact fresh_inv.
  - reflexivity.
  - constructor.
  - vm_compute. reflexivity.
  - reflexivity.
  - exact Hlive.
Defined.

Lemma retrieve_context_refetch_outside_geometry_witness :
  covers DemoGroup.outside_row (query_point (E := Demo.env) 300%Z 300%Z 4326%Z)
  = false /\
  exists u : string,
    build_query_url (E := Demo.env) Demo.soil 300%Z 300%Z 4326%Z = Some u
    /\ network_log
         (snd (retrieve_context (E := Demo.env) 300%Z 300%Z "soil" 4326%Z
                 (at_time 5000 DemoGroup.after_outside)))
       = [@HttpGet Demo.env u; @HttpGet Demo.env u]
    /\ exists (c2 : ContextCache) (w2 : World (H := Demo.env)),
         retrieve_context (E := Demo.env) 300%Z 300%Z "soil" 4326%Z
           (at_time 5000 DemoGroup.after_outside) = (Ok (Some c2), w2)
         /\ caches w2 = [DemoGroup.outside_row; c2]
         /\ geometry c2 = geometry DemoGroup.outside_row
         /\ value c2 = value DemoGroup.outside_row.
Proof.
  split; [reflexivity|].
  destruct (retrieve_context_refetch_outside_geometry (E := Demo.env)
              300%Z 300%Z "soil" 4326%Z Demo.fresh DemoGroup.after_outside
              Demo.soil DemoGroup.outside_row 5000%Z)
    as (u & Hu & _ & _ & Hlog & Hsame).
  - exact fresh_inv.
  - reflexivity.
  - constructor.
  - vm_compute. reflexivity.
  - discriminate.
  - reflexivity.
  - exists u. split; [exact Hu|]. split; [exact Hlog|].
    apply Hsame. reflexivity.
Defined.

Lemma retrieve_context_wms_cached_raises_witness :
  world_inv DemoGroup.rained /\
  caches_of DemoGroup.rained Demo.rain <> [] /\
  retrieve_context (E := Demo.env) 77%Z 88%Z "rain" 4326%Z DemoGroup.rained
  = (Raise AttributeError, DemoGroup.rained).
Proof.
  assert (Hne : caches_of DemoGroup.rained Demo.rain <> [])
    by (vm_compute; discriminate).
  split; [exact rained_inv|]. split; [exact Hne|].
  apply (retrieve_context_wms_cached_raises (E := Demo.env) 77%Z 88%Z "rain"
           4326%Z DemoGroup.rained Demo.rain rained_inv).
  - vm_compute. reflexivity.
  - reflexivity.
  - exact Hne.
Defined.

Lemma retrieve_context_returns_hit_or_new_witness :
  world_inv DemoGroup.rained /\
  ~ In DemoGroup.rain_row (caches Demo.fresh) /\
  In DemoGroup.rain_row (caches DemoGroup.rained) /\
  ((exists u, network_log DemoGroup.rained = @HttpGet Demo.env u :: [])
   \/ (exists q u v,
         network_log DemoGroup.rained
         = [@WmsGetFeatureInfo Demo.env q; @WmsGetCapabilities Demo.env u v])).
Proof.
  split; [exact rained_inv|].
  destruct (retrieve_context_returns_hit_or_new (E := Demo.env) 10%Z 20%Z
              "rain" 4326%Z Demo.fresh DemoGroup.rained DemoGroup.rain_row
              fresh_inv)
    as [(Hin & _) | (Hnot & _ & Hin & Hlog)].
  - vm_compute. reflexivity.
  - destruct Hin.
  - split; [exact Hnot|]. split; [exact Hin | exact Hlog].
Defined.

Lemma retrieve_context_other_registries_untouched_witness :
  world_inv Demo.after_first /\
  caches_of_others
    (snd (retrieve_context (E := Demo.env) 10%Z 20%Z "rain" 4326%Z
            Demo.after_first)) "rain"
  = [Demo.first_row].
Proof.
  assert (Hinv : world_inv Demo.after_first).
  { exact (proj1 (retrieve_context_inv (E := Demo.env) _ _ _ _ _ _ _ fresh_inv
                    (surjective_pairing _))). }
  split; [exact Hinv|].
  rewrite (retrieve_context_other_registries_untouched (E := Demo.env)
             10%Z 20%Z "rain" 4326%Z Demo.after_first _ _ Hinv
             (surjective_pairing _)).
  vm_compute. reflexivity.
Defined.


Lemma retrieve_context_value_no_ttl_witness :
  time_to_live DemoGroup.timeless = None /\
  caches (snd (retrieve_context_value (E := Demo.env) DemoGroup.timeless
                 10%Z 20%Z 4326%Z Demo.fresh)) = [] /\
  fst (retrieve_context_value (E := Demo.env) DemoGroup.timeless
         10%Z 20%Z 4326%Z Demo.fresh) = Raise TypeError.
Proof.
  split; [reflexivity|]. split.
  - exact (proj1 (retrieve_context_value_no_ttl (E := Demo.env)
                    DemoGroup.timeless 10%Z 20%Z 4326%Z Demo.fresh _ _ eq_refl
                    (surjective_pairing _))).
  - vm_compute. reflexivity.
Defined.

Lemma retrieve_context_value_stored_row_witness :
  retrieve_context_value (E := Demo.env) Demo.soil 10%Z 20%Z 4326%Z Demo.fresh
  = (Ok (Some Demo.first_row), Demo.after_first) /\
  exists ttl : Z,
    time_to_live Demo.soil = Some ttl
    /\ expired_time Demo.first_row = (utcnow Demo.fresh + ttl)%Z
    /\ cache_name Demo.first_row = "soil"
    /\ service_registry Demo.first_row = "soil"
    /\ caches Demo.after_first = [Demo.first_row].
Proof.
  assert (H : retrieve_context_value (E := Demo.env) Demo.soil 10%Z 20%Z 4326%Z
                Demo.fresh = (Ok (Some Demo.first_row), Demo.after_first))
    by (vm_compute; reflexivity).
  split; [exact H|].
  destruct (retrieve_context_value_stored_row (E := Demo.env) _ _ _ _ _ _ _ H)
    as (ttl & Httl & Hexp & Hname & Hsr & Hcs & _).
  exists ttl. repeat split; assumption.
Defined.

Lemma parse_request_value_document_order_witness :
  (query_type Demo.soil = WFS \/ query_type Demo.soil = WMS) /\
  minidom_parseString (Externals := Demo.env) Demo.soil_payload
  = Ok Demo.soil_doc /\
  parse_request_value (E := Demo.env) Demo.soil Demo.soil_payload
  = Ok (Some "clay").
Proof.
  split; [left; reflexivity|]. split; [reflexivity|].
  rewrite (parse_request_value_document_order (E := Demo.env) Demo.soil
             Demo.soil_payload Demo.soil_doc (or_introl eq_refl) eq_refl).
  reflexivity.
Defined.

Lemma populate_service_registry_values_aligned_witness :
  get_context_service_registry_keys (E := Demo.env) "g" Demo.paired
  = ["soil"; "rain"] /\
  List.length
    (match fst (populate_service_registry_values (E := Demo.env) 10%Z 20%Z "g"
                  4326%Z Demo.paired) with
     | Ok vs => vs
     | Raise _ => []
     end) = 2.
Proof.
  split; [reflexivity|].
  destruct (populate_service_registry_values (E := Demo.env) 10%Z 20%Z "g"
              4326%Z Demo.paired) as [[vs | e] w'] eqn:H.
  - exact (proj2 (populate_service_registry_values_aligned (E := Demo.env)
                    _ _ _ _ _ _ _ H)).
  - vm_compute in H. discriminate H.
Defined.

Lemma populate_service_registry_values_keeps_inv_witness :
  world_inv Demo.grouped /\
  fst (populate_service_registry_values (E := Demo.env) 10%Z 20%Z "g" 4326%Z
         Demo.grouped) = Raise (NetworkError "connection refused") /\
  world_inv (snd (populate_service_registry_values (E := Demo.env) 10%Z 20%Z
                    "g" 4326%Z Demo.grouped)).
Proof.
  assert (Hinv : world_inv Demo.grouped) by (apply empty_cache_inv; reflexivity).
  split; [exact Hinv|]. split; [vm_compute; reflexivity|].
  exact (proj1 (populate_service_registry_values_keeps_inv (E := Demo.env)
                  10%Z 20%Z "g" 4326%Z Demo.grouped _ _ Hinv
                  (surjective_pairing _))).
Defined.

Lemma ContextGroupValue_init_returned_witness :
  exists (v : ContextGroupValue (E := Demo.env)) (w' : World (H := Demo.env)),
    ContextGroupValue_init (E := Demo.env) DemoGroup.groups 10%Z 20%Z "g"
      4326%Z Demo.paired = (Returned v, w')
    /\ cgv_key v = "g" /\ cgv_name v = "Ground"
    /\ List.length (cgv_service_registry_values v) = 2.
Proof.
  destruct (ContextGroupValue_init (E := Demo.env) DemoGroup.groups 10%Z 20%Z
              "g" 4326%Z Demo.paired) as [[v | e] w'] eqn:H.
  - exists v, w'. split; [reflexivity|].
    destruct (ContextGroupValue_init_returned (E := Demo.env) _ _ _ _ _ _ _ _ H)
      as (Hk & _ & _ & _ & Hall).
    split; [exact Hk|]. split.
    + vm_compute in H. injection H as <- _. reflexivity.
    + rewrite <- (Forall2_length Hall). reflexivity.
  - vm_compute in H. discriminate H.
Defined.

Lemma ContextGroupValue_init_unknown_group_witness :
  (forall g', In g' DemoGroup.groups -> group_key g' <> "zzz") /\
  ContextGroupValue_init (E := Demo.env) DemoGroup.groups 10%Z 20%Z "zzz"
    4326%Z Demo.paired = (Aborted Http404, Demo.paired).
Proof.
  assert (H : forall g', In g' DemoGroup.groups -> group_key g' <> "zzz").
  { intros g' Hg'. simpl in Hg'.
    repeat (destruct Hg' as [<- | Hg']; [discriminate|]). contradiction. }
  split; [exact H|].
  exact (ContextGroupValue_init_unknown_group (E := Demo.env) _ _ _ _ _ _ H).
Defined.

(** ** The request of a WFS fetch and the invariant of a lookup *)

Section More.

Context `{E : Externals}.

(** X21.  A fetch for a WFS registry sends exactly one GET, of the URL
    that [build_query_url] builds, whatever comes of the response; a row
    it stores has a geometry and records that URL as its source. *)
Theorem retrieve_context_value_wfs_request (self : ContextServiceRegistry)
    (x y : Coord) (srid_ : Z) (w w' : World)
    (res : result (option ContextCache)) :
  query_type self = WFS ->
  retrieve_context_value self x y srid_ w = (res, w') ->
  exists u : string,
    build_query_url self x y srid_ = Some u
    /\ network_log w' = HttpGet u :: network_log w
    /\ forall c, res = Ok (Some c) ->
         geometry c <> None /\ source_uri c = str_truthy (Some u).
Proof.
  intros Hq H.
  destruct (build_query_url self x y srid_) as [u|] eqn:Hu;
    [|unfold build_query_url in Hu; rewrite Hq, String.eqb_refl in Hu;
      discriminate Hu].
  exists u. split; [reflexivity|]. split.
  - assert (Hne : query_type self <> WMS)
      by (apply String.eqb_neq; exact (wfs_is_not_wms self Hq)).
    rewrite (retrieve_context_value_log _ _ _ _ _ _ _ Hne H), Hu.
    reflexivity.
  - intros c ->. apply retrieve_context_value_row in H
      as (ttl & _ & _ & _ & _ & _ & _
          & [(Hwms & _) | (_ & u' & content & g & Hu' & _ & _ & Hg & _ & Hsrc)]).
    + rewrite Hq in Hwms. discriminate Hwms.
    + assert (u' = u) as -> by congruence.
      split; [rewrite Hg; discriminate | exact Hsrc].
Qed.

(** X22.  A lookup keeps the engine in one of its states: primary keys
    stay unique and below the next one, only rows of WMS registries lack
    a geometry.  It changes neither the registries, nor the groups, nor
    the clock, and uses up at most one primary key. *)
Theorem retrieve_context_keeps_inv (x y : Coord) (k : string) (srid_ : Z)
    (w w' : World) (res : result (option ContextCache)) :
  world_inv w ->
  retrieve_context x y k srid_ w = (res, w') ->
  world_inv w'
  /\ registries w' = registries w
  /\ group_services w' = group_services w
  /\ utcnow w' = utcnow w
  /\ (next_pk w' = next_pk w \/ next_pk w' = S (next_pk w)).
Proof.
  intros Hinv H.
  destruct (retrieve_context_inv _ _ _ _ _ _ _ Hinv H) as (Hinv' & Hr & Hg).
  destruct (retrieve_context_next_pk _ _ _ _ _ _ _ H) as [_ Hnow].
  split; [exact Hinv'|]. split; [exact Hr|]. split; [exact Hg|].
  split; [exact Hnow|].
  assert (Hval : forall w0 r,
             next_pk w0 = next_pk w ->
             retrieve_context_value r x y srid_ w0 = (res, w') ->
             next_pk w' = next_pk w \/ next_pk w' = S (next_pk w)).
  { intros w0 r Hpk0 Hv. apply retrieve_context_value_effect in Hv
      as (_ & _ & _ & [(_ & Hpk & _) | (c & _ & _ & Hpk & _)]);
      [left | right]; congruence. }
  apply retrieve_context_cases in H
    as [(e & _ & _ & ->)
       | (r & Hget & [(c0 & _ & _ & _ & _ & ->)
                     | [(_ & ->) | [Hv | (e & _ & _ & _ & Hv)]]])];
    auto.
  - exact (Hval w r eq_refl Hv).
  - exact (Hval (without e w) r eq_refl Hv).
Qed.

End More.

Lemma retrieve_context_value_wfs_request_witness :
  query_type Demo.bare = WFS /\
  fst (retrieve_context_value (E := Demo.env) Demo.bare 10%Z 20%Z 4326%Z
         Demo.fresh) = Ok None /\
  exists u : string,
    build_query_url (E := Demo.env) Demo.bare 10%Z 20%Z 4326%Z = Some u
    /\ network_log (snd (retrieve_context_value (E := Demo.env) Demo.bare
                           10%Z 20%Z 4326%Z Demo.fresh))
       = [@HttpGet Demo.env u].
Proof.
  split; [reflexivity|]. split; [vm_compute; reflexivity|].
  destruct (retrieve_context_value_wfs_request (E := Demo.env) Demo.bare
              10%Z 20%Z 4326%Z Demo.fresh _ _ eq_refl (surjective_pairing _))
    as (u & Hu & Hlog & _).
  exists u. split; [exact Hu | exact Hlog].
Defined.

Lemma retrieve_context_keeps_inv_witness :
  world_inv Demo.expired_only /\
  world_inv (snd (retrieve_context (E := Demo.env) 10%Z 20%Z "soil" 4326%Z
                    Demo.expired_only)) /\
  next_pk (snd (retrieve_context (E := Demo.env) 10%Z 20%Z "soil" 4326%Z
                  Demo.expired_only)) = 4.
Proof.
  split; [exact expired_only_inv|].
  destruct (retrieve_context_keeps_inv (E := Demo.env) 10%Z 20%Z "soil" 4326%Z
              Demo.expired_only _ _ expired_only_inv (surjective_pairing _))
    as (Hinv & _).
  split; [exact Hinv | vm_compute; reflexivity].
Defined.
